(** * TimeZone widget: the time-conversion routine and its host

    A shallow embedding of the three variants of the "Time Converter"
    React component:

    - the offset-picker variant ([convertTimes], date and time strings
      plus a "UTC+n" label),
    - the free-text variant ([handleConvert] on an ISO string),
    - the date-picker variant ([handleConvert] on a [Date] value plus a
      "UTC+n" label).

    The components only glue the ECMAScript [Date] object and
    [Intl.DateTimeFormat] together.  Module [JS] models the part of that
    host the components call; everything the ECMAScript specification
    leaves to the implementation (the zone database, the zone the host
    runs in, locale data, the parser's fallback) is a field of the
    record [JS.Host]. *)

From Stdlib Require Import ZArith List String Ascii Bool Lia.
Import ListNotations.

Open Scope string_scope.
Open Scope Z_scope.

(** ** Exceptions and JavaScript numbers *)

Module JS.

(** The exceptions the modelled host functions throw. *)
Inductive Exn : Type :=
| RangeError_InvalidTimeZone (zone : string)
| RangeError_InvalidTimeValue.

(** A computation that returns or throws. *)
Inductive Outcome (A : Type) : Type :=
| Ret (a : A)
| Raise (e : Exn).
Arguments Ret {A} a.
Arguments Raise {A} e.

Definition bind {A B} (m : Outcome A) (k : A -> Outcome B) : Outcome B :=
  match m with
  | Ret a => k a
  | Raise e => Raise e
  end.

Notation "x <- m ;; k" := (bind m (fun x => k))
  (at level 61, m at next level, right associativity).

(** [Array.prototype.map] with a callback that may throw: the elements
    are visited left to right and the first exception aborts the loop. *)
Fixpoint mapM {A B} (f : A -> Outcome B) (l : list A) : Outcome (list B) :=
  match l with
  | [] => Ret []
  | a :: l' => b <- f a ;; bs <- mapM f l' ;; Ret (b :: bs)
  end.

(** A Number that is an integer or NaN.  Every arithmetic expression of
    the components stays on integers below 2^53 or ends in [TimeClip],
    so the integer model is exact where a valid time value results. *)
Definition Num := option Z.

Definition NaN : Num := None.

Definition num_add (a b : Num) : Num :=
  match a, b with
  | Some x, Some y => Some (x + y)
  | _, _ => None
  end.

Definition num_sub (a b : Num) : Num :=
  match a, b with
  | Some x, Some y => Some (x - y)
  | _, _ => None
  end.

Definition num_mul (a b : Num) : Num :=
  match a, b with
  | Some x, Some y => Some (x * y)
  | _, _ => None
  end.

Definition isNaN (a : Num) : bool :=
  match a with
  | Some _ => false
  | None => true
  end.

(** ** Strings *)

Fixpoint drop (n : nat) (s : string) : string :=
  match n, s with
  | O, _ => s
  | S _, EmptyString => EmptyString
  | S k, String _ s' => drop k s'
  end.

(** [s.replace(pat, rep)] for a string pattern: the first occurrence. *)
Fixpoint replace (pat rep s : string) : string :=
  if String.prefix pat s then rep ++ drop (String.length pat) s
  else match s with
       | EmptyString => EmptyString
       | String c s' => String c (replace pat rep s')
       end.

(** [s.includes(pat)]. *)
Fixpoint includes (pat s : string) : bool :=
  if String.prefix pat s then true
  else match s with
       | EmptyString => false
       | String _ s' => includes pat s'
       end.

(** [s.split(sep)] for a non-empty separator.  [skip] counts the
    characters of a separator just matched that are still to be passed
    over, [cur] is the piece read so far. *)
Fixpoint split_go (sep : string) (skip : nat) (cur s : string) : list string :=
  match s with
  | EmptyString => [cur]
  | String c s' =>
      match skip with
      | S k => split_go sep k cur s'
      | O =>
          if String.prefix sep s
          then cur :: split_go sep (Nat.pred (String.length sep)) EmptyString s'
          else split_go sep O (cur ++ String c EmptyString) s'
      end
  end.

Definition split (sep s : string) : list string := split_go sep O EmptyString s.

(** [s.slice(0, n)]. *)
Definition slice0 (n : nat) (s : string) : string := String.substring 0 n s.

(** [a || b] on strings: the empty string is falsy. *)
Definition or_else (a b : string) : string :=
  if String.eqb a EmptyString then b else a.

(** An array element used inside a template literal; a missing element
    is [undefined]. *)
Definition template_elem (o : option string) : string :=
  match o with
  | Some s => s
  | None => "undefined"
  end.

(** ** parseInt *)

Definition isWhiteSpace (c : ascii) : bool :=
  let n := nat_of_ascii c in
  (Nat.eqb n 32 || Nat.eqb n 9 || Nat.eqb n 10 || Nat.eqb n 11
   || Nat.eqb n 12 || Nat.eqb n 13)%bool.

Fixpoint trimStart (s : string) : string :=
  match s with
  | String c s' => if isWhiteSpace c then trimStart s' else s
  | EmptyString => s
  end.

(** Value of a character as a digit of the given radix (10 or 16). *)
Definition digitValue (radix : Z) (c : ascii) : option Z :=
  let n := Z.of_nat (nat_of_ascii c) in
  let v := if (48 <=? n) && (n <=? 57) then Some (n - 48)
           else if (97 <=? n) && (n <=? 102) then Some (n - 87)
           else if (65 <=? n) && (n <=? 70) then Some (n - 55)
           else None in
  match v with
  | Some d => if d <? radix then Some d else None
  | None => None
  end.

(** Longest prefix of digits; [acc] is [None] until a digit was read. *)
Fixpoint parseDigits (radix : Z) (acc : option Z) (s : string) : option Z :=
  match s with
  | EmptyString => acc
  | String c s' =>
      match digitValue radix c with
      | Some d =>
          parseDigits radix
            (Some (match acc with Some a => a * radix + d | None => d end)) s'
      | None => acc
      end
  end.

(** [parseInt(s)] with no radix argument: leading white space, an
    optional sign, an optional [0x] prefix, then the longest run of
    digits; NaN when there is no digit. *)
Definition parseInt (s : string) : Num :=
  let s1 := trimStart s in
  let '(sign, s2) :=
    match s1 with
    | String "-" r => (-1, r)
    | String "+" r => (1, r)
    | _ => (1, s1)
    end in
  let '(radix, s3) :=
    match s2 with
    | String "0" (String "x" r) => (16, r)
    | String "0" (String "X" r) => (16, r)
    | _ => (10, s2)
    end in
  match parseDigits radix None s3 with
  | Some v => Some (sign * v)
  | None => NaN
  end.

(** ** Time values (ECMA-262, "Time Values and Time Range") *)

Definition msPerSecond : Z := 1000.
Definition msPerMinute : Z := 60000.
Definition msPerHour : Z := 3600000.
Definition msPerDay : Z := 86400000.

(** Largest magnitude of a valid time value. *)
Definition maxTime : Z := 8640000000000000.

Definition Day (t : Z) : Z := t / msPerDay.
Definition TimeWithinDay (t : Z) : Z := t mod msPerDay.
Definition HourFromTime (t : Z) : Z := (t / msPerHour) mod 24.
Definition MinFromTime (t : Z) : Z := (t / msPerMinute) mod 60.
Definition SecFromTime (t : Z) : Z := (t / msPerSecond) mod 60.
Definition msFromTime (t : Z) : Z := t mod msPerSecond.

(** Day of the week of a day number, 0 is Sunday. *)
Definition WeekDayOfDay (day : Z) : Z := (day + 4) mod 7.
Definition WeekDay (t : Z) : Z := WeekDayOfDay (Day t).

(** Day number of a day of the proleptic Gregorian calendar, [m] from 1
    to 12.  The year is counted from March so that the leap day is the
    last day of the counted year. *)
Definition DayFromCivil (y m d : Z) : Z :=
  let y' := if m <=? 2 then y - 1 else y in
  let era := y' / 400 in
  let yoe := y' - era * 400 in
  let mp := (m + 9) mod 12 in
  let doy := (153 * mp + 2) / 5 + d - 1 in
  let doe := yoe * 365 + yoe / 4 - yoe / 100 + doy in
  era * 146097 + doe - 719468.

(** Year, month (1 to 12) and day of the month of a day number. *)
Definition CivilFromDay (day : Z) : Z * Z * Z :=
  let z := day + 719468 in
  let era := z / 146097 in
  let doe := z - era * 146097 in
  let yoe := (doe - doe / 1460 + doe / 36524 - doe / 146096) / 365 in
  let doy := doe - (365 * yoe + yoe / 4 - yoe / 100) in
  let mp := (5 * doy + 2) / 153 in
  let d := doy - (153 * mp + 2) / 5 + 1 in
  let m := if mp <? 10 then mp + 3 else mp - 9 in
  let y := yoe + era * 400 in
  (if m <=? 2 then y + 1 else y, m, d).

Definition YearFromTime (t : Z) : Z := fst (fst (CivilFromDay (Day t))).
(** Month of the year, 0 to 11. *)
Definition MonthFromTime (t : Z) : Z := snd (fst (CivilFromDay (Day t))) - 1.
Definition DateFromTime (t : Z) : Z := snd (CivilFromDay (Day t)).

Definition MakeTime (hour min sec ms : Z) : Z :=
  hour * msPerHour + min * msPerMinute + sec * msPerSecond + ms.

(** [month] counts from 0 and may lie outside 0..11; [date] may lie
    outside the month. *)
Definition MakeDay (year month date : Z) : Z :=
  let ym := year + month / 12 in
  let mn := month mod 12 in
  DayFromCivil ym (mn + 1) 1 + date - 1.

Definition MakeDate (day time : Z) : Z := day * msPerDay + time.

Definition TimeClip (time : Num) : Num :=
  match time with
  | Some t => if Z.abs t <=? maxTime then Some t else NaN
  | None => NaN
  end.

(** ** The host *)

(** What the implementation decides.  [tzdb] is the zone database: the
    offset from UTC, in milliseconds, of a recognised zone at a UTC
    instant.  [timeZone] is the zone the host runs in, the value of
    [Intl.DateTimeFormat().resolvedOptions().timeZone]; [now] is the
    clock.  [tzShortName] and [dayPeriodSep] are en-US locale data: the
    short name of a zone at an instant, and the space that separates the
    time from AM or PM (a plain space, or U+202F since CLDR 42).
    [fallbackParse] is what [Date.parse] does with a string outside the
    ECMAScript date-time format. *)
Record Host : Type := mkHost {
  now : Z;
  timeZone : string;
  tzdb : string -> option (Z -> Z);
  tzShortName : string -> Z -> string;
  dayPeriodSep : string;
  fallbackParse : string -> Num
}.

(** Offset of the host's own zone at a UTC instant. *)
Definition hostOffset (h : Host) (t : Z) : Z :=
  match tzdb h (timeZone h) with
  | Some off => off t
  | None => 0
  end.

(** [LocalTZA(t, true)]. *)
Definition LocalTZA_utc (h : Host) (t : Z) : Z := hostOffset h t.

(** [LocalTZA(tlocal, false)]: a local time that is skipped or repeated
    at a transition is read with the offset before the transition. *)
Definition LocalTZA_local (h : Host) (tl : Z) : Z :=
  let before := hostOffset h (tl - msPerDay) in
  let after := hostOffset h (tl + msPerDay) in
  if hostOffset h (tl - before) =? before then before
  else if hostOffset h (tl - after) =? after then after
  else before.

Definition LocalTime (h : Host) (t : Z) : Z := t + LocalTZA_utc h t.
Definition UTC (h : Host) (tl : Z) : Z := tl - LocalTZA_local h tl.

(** ** Decimal digits *)

Definition digitChar (d : Z) : ascii := ascii_of_nat (48 + Z.to_nat d).

(** The [n] low decimal digits of [z], most significant first. *)
Fixpoint pad (n : nat) (z : Z) (acc : string) : string :=
  match n with
  | O => acc
  | S k => pad k (z / 10) (String (digitChar (z mod 10)) acc)
  end.

Definition pad2 (z : Z) : string := pad 2 z "".
Definition pad3 (z : Z) : string := pad 3 z "".
Definition pad4 (z : Z) : string := pad 4 z "".
Definition pad6 (z : Z) : string := pad 6 z "".

Fixpoint showDigits (fuel : nat) (z : Z) (acc : string) : string :=
  match fuel with
  | O => acc
  | S k =>
      let acc' := String (digitChar (z mod 10)) acc in
      if z <? 10 then acc' else showDigits k (z / 10) acc'
  end.

(** Decimal numeral of a natural number. *)
Definition showZ (z : Z) : string :=
  showDigits (S (Z.to_nat (Z.log2 z))) z "".

(** ** Date.parse on the ECMAScript date-time string format *)

Definition obind {A B} (m : option A) (k : A -> option B) : option B :=
  match m with
  | Some a => k a
  | None => None
  end.

Notation "x <-? m ;; k" := (obind m (fun x => k))
  (at level 61, m at next level, right associativity).

Definition digit (c : ascii) : option Z := digitValue 10 c.

(** Exactly [n] decimal digits. *)
Fixpoint digits (n : nat) (acc : Z) (s : string) : option (Z * string) :=
  match n with
  | O => Some (acc, s)
  | S k =>
      match s with
      | String c r =>
          match digit c with
          | Some d => digits k (acc * 10 + d) r
          | None => None
          end
      | EmptyString => None
      end
  end.

(** [YYYY], or a sign and six digits; [-000000] is not a year. *)
Definition parseYear (s : string) : option (Z * string) :=
  match s with
  | String "+" r => digits 6 0 r
  | String "-" r =>
      p <-? digits 6 0 r ;;
      if fst p =? 0 then None else Some (- fst p, snd p)
  | _ => digits 4 0 s
  end.

(** ["-"] and two digits when present, [dflt] otherwise; the flag tells
    whether the field was present. *)
Definition parseDashField (dflt : Z) (s : string) : option (Z * bool * string) :=
  match s with
  | String "-" r => p <-? digits 2 0 r ;; Some (fst p, true, snd p)
  | _ => Some (dflt, false, s)
  end.

(** [HH:mm] after a sign, to the end of the string, in milliseconds. *)
Definition parseOffsetHHmm (s : string) : option Z :=
  p <-? digits 2 0 s ;;
  match snd p with
  | String ":" r =>
      q <-? digits 2 0 r ;;
      match snd q with
      | EmptyString =>
          if (fst p <=? 23) && (fst q <=? 59)
          then Some ((fst p * 60 + fst q) * msPerMinute)
          else None
      | _ => None
      end
  | _ => None
  end.

(** The UTC offset that ends a date-time: absent, [Z], or [+HH:mm] /
    [-HH:mm]. *)
Definition parseOffset (s : string) : option (option Z) :=
  match s with
  | EmptyString => Some None
  | String "Z" EmptyString => Some (Some 0)
  | String "+" r => o <-? parseOffsetHHmm r ;; Some (Some o)
  | String "-" r => o <-? parseOffsetHHmm r ;; Some (Some (- o))
  | _ => None
  end.

(** Optional [:ss] and, after it, optional [.sss]. *)
Definition parseSeconds (s : string) : option (Z * Z * string) :=
  match s with
  | String ":" r =>
      p <-? digits 2 0 r ;;
      match snd p with
      | String "." r' => q <-? digits 3 0 r' ;; Some (fst p, fst q, snd q)
      | _ => Some (fst p, 0, snd p)
      end
  | _ => Some (0, 0, s)
  end.

Record IsoFields : Type := mkIso {
  iso_year : Z;
  iso_month : Z;                       (* 1 to 12 *)
  iso_day : Z;
  iso_time : option (Z * Z * Z * Z);   (* hour, minute, second, ms *)
  iso_offset : option Z                (* ms east of UTC *)
}.

Definition validTime (hh mi ss ms : Z) : bool :=
  ((hh <=? 23) && (mi <=? 59) && (ss <=? 59))
  || ((hh =? 24) && (mi =? 0) && (ss =? 0) && (ms =? 0)).

(** The date-only forms [YYYY], [YYYY-MM], [YYYY-MM-DD], each optionally
    followed by [THH:mm], [THH:mm:ss] or [THH:mm:ss.sss] and a UTC
    offset. *)
Definition parseIso (s : string) : option IsoFields :=
  y <-? parseYear s ;;
  mo <-? parseDashField 1 (snd y) ;;
  d <-? (if snd (fst mo) then parseDashField 1 (snd mo)
         else Some (1, false, snd mo)) ;;
  let year := fst y in
  let month := fst (fst mo) in
  let day := fst (fst d) in
  if negb ((1 <=? month) && (month <=? 12) && (1 <=? day) && (day <=? 31))
  then None
  else
    match snd d with
    | EmptyString => Some (mkIso year month day None None)
    | String "T" r =>
        hh <-? digits 2 0 r ;;
        match snd hh with
        | String ":" r' =>
            mm <-? digits 2 0 r' ;;
            sec <-? parseSeconds (snd mm) ;;
            off <-? parseOffset (snd sec) ;;
            let ss := fst (fst sec) in
            let ms := snd (fst sec) in
            if validTime (fst hh) (fst mm) ss ms
            then Some (mkIso year month day (Some (fst hh, fst mm, ss, ms)) off)
            else None
        | _ => None
        end
    | _ => None
    end.

(** Time value of parsed fields.  Without an offset, a date-only form
    is UTC and a date-time form is local time. *)
Definition timeOfIso (h : Host) (f : IsoFields) : Z :=
  let day := MakeDay (iso_year f) (iso_month f - 1) (iso_day f) in
  match iso_time f with
  | None => MakeDate day 0
  | Some (hh, mi, ss, ms) =>
      let tv := MakeDate day (MakeTime hh mi ss ms) in
      match iso_offset f with
      | Some off => tv - off
      | None => UTC h tv
      end
  end.

(** [Date.parse(s)]. *)
Definition parse (h : Host) (s : string) : Num :=
  match parseIso s with
  | Some f => Some (timeOfIso h f)
  | None => fallbackParse h s
  end.

(** ** Date objects *)

(** A [Date] is its time value; NaN is the Invalid Date. *)
Definition Date := Num.

(** [new Date(s)] for a string. *)
Definition newDate_string (h : Host) (s : string) : Date := TimeClip (parse h s).

(** [new Date(v)] for a number. *)
Definition newDate_number (v : Num) : Date := TimeClip v.

(** [new Date()]. *)
Definition newDate_now (h : Host) : Date := TimeClip (Some (now h)).

Definition getTime (d : Date) : Num := d.

Definition getHours (h : Host) (d : Date) : Num :=
  match d with
  | Some t => Some (HourFromTime (LocalTime h t))
  | None => NaN
  end.

(** [d.setHours(hour)]: the new time value of [d]. *)
Definition setHours (h : Host) (d : Date) (hour : Num) : Date :=
  match d, hour with
  | Some t, Some hr =>
      let tl := LocalTime h t in
      let time := MakeTime hr (MinFromTime tl) (SecFromTime tl) (msFromTime tl) in
      TimeClip (Some (UTC h (MakeDate (Day tl) time)))
  | _, _ => NaN
  end.

Definition isoYear (y : Z) : string :=
  if (0 <=? y) && (y <=? 9999) then pad4 y
  else if y <? 0 then "-" ++ pad6 (- y)
  else "+" ++ pad6 y.

(** [d.toISOString()]. *)
Definition toISOString (d : Date) : Outcome string :=
  match d with
  | None => Raise RangeError_InvalidTimeValue
  | Some t =>
      Ret (isoYear (YearFromTime t) ++ "-" ++ pad2 (MonthFromTime t + 1)
           ++ "-" ++ pad2 (DateFromTime t)
           ++ "T" ++ pad2 (HourFromTime t) ++ ":" ++ pad2 (MinFromTime t)
           ++ ":" ++ pad2 (SecFromTime t) ++ "." ++ pad3 (msFromTime t) ++ "Z")
  end.

(** [d.toTimeString()]: local [HH:mm:ss], then [GMT] with the offset as
    sign, hours and minutes, then the name of the zone in parentheses. *)
Definition toTimeString (h : Host) (d : Date) : string :=
  match d with
  | None => "Invalid Date"
  | Some t =>
      let tl := LocalTime h t in
      let off := LocalTZA_utc h t in
      let a := Z.abs off in
      pad2 (HourFromTime tl) ++ ":" ++ pad2 (MinFromTime tl) ++ ":"
      ++ pad2 (SecFromTime tl) ++ " GMT" ++ (if 0 <=? off then "+" else "-")
      ++ pad2 (a / msPerHour) ++ pad2 ((a / msPerMinute) mod 60)
      ++ " (" ++ tzShortName h (timeZone h) t ++ ")"
  end.

(** ** Intl.DateTimeFormat, locale en-US *)

Definition monthShort (m : Z) : string :=
  nth (Z.to_nat m)
    ["Jan"; "Feb"; "Mar"; "Apr"; "May"; "Jun";
     "Jul"; "Aug"; "Sep"; "Oct"; "Nov"; "Dec"] "".

Definition monthLong (m : Z) : string :=
  nth (Z.to_nat m)
    ["January"; "February"; "March"; "April"; "May"; "June"; "July";
     "August"; "September"; "October"; "November"; "December"] "".

Definition weekdayLong (w : Z) : string :=
  nth (Z.to_nat w)
    ["Sunday"; "Monday"; "Tuesday"; "Wednesday"; "Thursday"; "Friday";
     "Saturday"] "".

(** Hour of the 12-hour clock and its day period. *)
Definition hour12 (hh : Z) : Z := if hh mod 12 =? 0 then 12 else hh mod 12.
Definition dayPeriod (hh : Z) : string := if hh <? 12 then "AM" else "PM".

(** Year as printed without an era: the year of the era. *)
Definition eraYear (y : Z) : Z := if y <=? 0 then 1 - y else y.

(** The option objects the components pass, next to [timeZone]. *)
Inductive Options : Type :=
| DateTimeShort   (* year numeric, month short, day numeric,
                     hour numeric, minute 2-digit, hour12 true *)
| TimeOnly        (* hour numeric, minute 2-digit, hour12 true *)
| MonthDay        (* month short, day numeric *)
| FullDate        (* weekday long, year numeric, month long, day numeric *)
| HourMinute      (* hour numeric, minute numeric *)
| ZoneNameShort.  (* timeZoneName short: the default date and time
                     fields and the zone name *)

(** A part of a formatted date: its type and its text. *)
Definition Part : Type := string * string.

Definition lit (s : string) : Part := ("literal", s).

Definition timeParts (h : Host) (tl : Z) : list Part :=
  [ ("hour", showZ (hour12 (HourFromTime tl))); lit ":";
    ("minute", pad2 (MinFromTime tl)); lit (dayPeriodSep h);
    ("dayPeriod", dayPeriod (HourFromTime tl)) ].

(** Parts of the instant [t] shown in the zone [zone], whose offset
    function is [off]. *)
Definition partsOf (h : Host) (o : Options) (zone : string) (off : Z -> Z)
    (t : Z) : list Part :=
  let tl := t + off t in
  let year := ("year", showZ (eraYear (YearFromTime tl))) in
  let day := ("day", showZ (DateFromTime tl)) in
  match o with
  | DateTimeShort =>
      [ ("month", monthShort (MonthFromTime tl)); lit " "; day; lit ", ";
        year; lit ", " ] ++ timeParts h tl
  | TimeOnly => timeParts h tl
  | HourMinute => timeParts h tl
  | MonthDay => [ ("month", monthShort (MonthFromTime tl)); lit " "; day ]
  | FullDate =>
      [ ("weekday", weekdayLong (WeekDay tl)); lit ", ";
        ("month", monthLong (MonthFromTime tl)); lit " "; day; lit ", "; year ]
  | ZoneNameShort =>
      [ ("month", showZ (MonthFromTime tl + 1)); lit "/"; day; lit "/"; year;
        lit ", "; ("hour", showZ (hour12 (HourFromTime tl))); lit ":";
        ("minute", pad2 (MinFromTime tl)); lit ":";
        ("second", pad2 (SecFromTime tl)); lit (dayPeriodSep h);
        ("dayPeriod", dayPeriod (HourFromTime tl)); lit " ";
        ("timeZoneName", tzShortName h zone t) ]
  end.

Definition joinParts (ps : list Part) : string :=
  fold_right (fun p acc => snd p ++ acc) "" ps.

(** [new Intl.DateTimeFormat("en-US", {timeZone: zone, ...})]: throws on
    a zone the host does not know. *)
Definition DateTimeFormat (h : Host) (zone : string) : Outcome (Z -> Z) :=
  match tzdb h zone with
  | Some off => Ret off
  | None => Raise (RangeError_InvalidTimeZone zone)
  end.

(** [new Intl.DateTimeFormat("en-US", {timeZone: zone, ...o}).formatToParts(d)]. *)
Definition formatToParts (h : Host) (o : Options) (zone : string) (d : Date)
  : Outcome (list Part) :=
  off <- DateTimeFormat h zone ;;
  match d with
  | Some t => Ret (partsOf h o zone off t)
  | None => Raise RangeError_InvalidTimeValue
  end.

(** [new Intl.DateTimeFormat("en-US", {timeZone: zone, ...o}).format(d)]. *)
Definition format (h : Host) (o : Options) (zone : string) (d : Date)
  : Outcome string :=
  ps <- formatToParts h o zone d ;; Ret (joinParts ps).

(** [d.toLocaleString("en-US", {timeZone: zone, ...o})]: the Invalid
    Date is answered before the formatter is built. *)
Definition toLocaleString (h : Host) (o : Options) (zone : string) (d : Date)
  : Outcome string :=
  match d with
  | None => Ret "Invalid Date"
  | Some _ => format h o zone d
  end.

(** [parts.find((part) => part.type === ty)?.value]. *)
Definition findPart (ty : string) (ps : list Part) : option string :=
  match find (fun p => String.eqb (fst p) ty) ps with
  | Some p => Some (snd p)
  | None => None
  end.

End JS.

Import JS.

(** ** What the three variants share *)

(** [interface TimeZone]; [isLocal] is optional. *)
Record TimeZone : Type := mkTimeZone {
  name : string;
  zone : string;
  flag : string;
  isLocal : option bool
}.

(** [popularTimeZones], the same array in the three variants. *)
Definition popularTimeZones : list TimeZone :=
  [ mkTimeZone "New York" "America/New_York" "🇺🇸" None;
    mkTimeZone "Los Angeles" "America/Los_Angeles" "🇺🇸" None;
    mkTimeZone "London" "Europe/London" "🇬🇧" None;
    mkTimeZone "Tokyo" "Asia/Tokyo" "🇯🇵" None;
    mkTimeZone "Sydney" "Australia/Sydney" "🇦🇺" None;
    mkTimeZone "Dubai" "Asia/Dubai" "🇦🇪" None ].

(** The array literal [[{name: "Your Local Time", zone: userTimeZone,
    flag, isLocal: true}, ...popularTimeZones]]. *)
Definition allTimeZones (userTimeZone : string) : list TimeZone :=
  mkTimeZone "Your Local Time" userTimeZone "📍" (Some true)
  :: popularTimeZones.

(** [utcOffsets] of the offset-picker and date-picker variants. *)
Definition utcOffsets : list string :=
  [ "UTC-12"; "UTC-11"; "UTC-10"; "UTC-9"; "UTC-8"; "UTC-7"; "UTC-6";
    "UTC-5"; "UTC-4"; "UTC-3"; "UTC-2"; "UTC-1"; "UTC"; "UTC+1"; "UTC+2";
    "UTC+3"; "UTC+4"; "UTC+5"; "UTC+6"; "UTC+7"; "UTC+8"; "UTC+9";
    "UTC+10"; "UTC+11"; "UTC+12" ].

(** [parseInt(eventTimeZone.replace("UTC", "") || "0")]. *)
Definition offsetHours (eventTimeZone : string) : Num :=
  parseInt (or_else (replace "UTC" "" eventTimeZone) "0").

(** [new Date(time - offsetHours * 60 * 60 * 1000)]. *)
Definition adjust (time : Num) (offset : Num) : Date :=
  newDate_number
    (num_sub time (num_mul (num_mul (num_mul offset (Some 60)) (Some 60))
                           (Some 1000))).

(** What [console.error] and [console.log] print. *)
Inductive ConsoleEntry : Type :=
| ConsoleError (msg : string) (err : Exn).

(** ** The offset-picker variant: date string, time string, offset label *)

Module OffsetPicker.

(** [interface ConvertedTime extends TimeZone]: [spread] holds the
    fields copied by [...tz]. *)
Record ConvertedTime : Type := mkConverted {
  spread : TimeZone;
  converted : string;
  timeOnly : string;
  dateOnly : string
}.

(** The component's state, and the console it writes to. *)
Record State : Type := mkState {
  eventDate : string;
  eventTime : string;
  eventTimeZone : string;
  convertedTimes : list ConvertedTime;
  copiedIndex : option nat;
  console : list ConsoleEntry
}.

Definition setEventDate (v : string) (st : State) : State :=
  mkState v (eventTime st) (eventTimeZone st) (convertedTimes st)
          (copiedIndex st) (console st).

Definition setEventTime (v : string) (st : State) : State :=
  mkState (eventDate st) v (eventTimeZone st) (convertedTimes st)
          (copiedIndex st) (console st).

Definition setEventTimeZone (v : string) (st : State) : State :=
  mkState (eventDate st) (eventTime st) v (convertedTimes st)
          (copiedIndex st) (console st).

Definition setConvertedTimes (v : list ConvertedTime) (st : State) : State :=
  mkState (eventDate st) (eventTime st) (eventTimeZone st) v
          (copiedIndex st) (console st).

Definition setCopiedIndex (v : option nat) (st : State) : State :=
  mkState (eventDate st) (eventTime st) (eventTimeZone st) (convertedTimes st)
          v (console st).

Definition console_error (msg : string) (err : Exn) (st : State) : State :=
  mkState (eventDate st) (eventTime st) (eventTimeZone st) (convertedTimes st)
          (copiedIndex st) (console st ++ [ConsoleError msg err]).

(** [new Date(`${eventDate}T${eventTime}:00`)]. *)
Definition eventDateTime (h : Host) (date time : string) : Date :=
  newDate_string h (date ++ "T" ++ time ++ ":00").

(** [adjustedDate], the anchor instant of a conversion. *)
Definition adjustedDate (h : Host) (date time tzLabel : string) : Date :=
  adjust (getTime (eventDateTime h date time)) (offsetHours tzLabel).

(** The callback of [allTimeZones.map]. *)
Definition convertOne (h : Host) (d : Date) (tz : TimeZone)
  : Outcome ConvertedTime :=
  c <- format h DateTimeShort (zone tz) d ;;
  t <- format h TimeOnly (zone tz) d ;;
  o <- format h MonthDay (zone tz) d ;;
  Ret (mkConverted tz c t o).

(** [allTimeZones.map(...)] for the anchor [d]. *)
Definition conversions (h : Host) (d : Date) : Outcome (list ConvertedTime) :=
  mapM (convertOne h d) (allTimeZones (timeZone h)).

(** The body of the [try] block of [convertTimes], up to the value
    handed to [setConvertedTimes]. *)
Definition tryConvert (h : Host) (st : State) : Outcome (list ConvertedTime) :=
  conversions h (adjustedDate h (eventDate st) (eventTime st) (eventTimeZone st)).

Definition convertTimes (h : Host) (st : State) : State :=
  if String.eqb (eventDate st) "" || String.eqb (eventTime st) "" then st
  else
    match tryConvert h st with
    | Ret cs => setConvertedTimes cs st
    | Raise err => console_error "Conversion error:" err st
    end.

(** [formatDateTime]: the date of the ISO string, which is a UTC date,
    and the first five characters of the local time string. *)
Definition formatDateTime (h : Host) (date : Date) : Outcome (string * string) :=
  let d := date in
  iso <- toISOString d ;;
  let dateStr := hd "" (split "T" iso) in
  let timeStr := slice0 5 (toTimeString h d) in
  Ret (dateStr, timeStr).

(** [now.setHours(now.getHours() + hours)] on [now = new Date()]. *)
Definition shiftedNow (h : Host) (hours : Z) : Date :=
  let now := newDate_now h in
  setHours h now (num_add (getHours h now) (Some hours)).

(** [handleQuickFill(hours)].  An exception of [formatDateTime] leaves
    the handler before any state is set. *)
Definition handleQuickFill (hours : Z) (h : Host) (st : State) : State :=
  match formatDateTime h (shiftedNow h hours) with
  | Ret (dateStr, timeStr) => setEventTime timeStr (setEventDate dateStr st)
  | Raise _ => st
  end.

(** The effect [useEffect(() => { convertTimes(); }, [convertTimes])]:
    [convertTimes] is a [useCallback] over the three inputs, so the
    effect runs after a render in which one of them changed. *)
Definition sameInputs (a b : State) : bool :=
  String.eqb (eventDate a) (eventDate b)
  && String.eqb (eventTime a) (eventTime b)
  && String.eqb (eventTimeZone a) (eventTimeZone b).

Definition afterRender (h : Host) (prev st : State) : State :=
  if sameInputs prev st then st else convertTimes h st.

(** A click on a quick-fill button, followed by the render it causes. *)
Definition clickQuickFill (hours : Z) (h : Host) (st : State) : State :=
  afterRender h st (handleQuickFill hours h st).

(** The state of the first render. *)
Definition initialState : State := mkState "" "" "UTC" [] None [].

(** The mount effect: [formatDateTime(new Date())] fills the date and
    the time.  The call [sdk.actions.ready()] before it belongs to the
    frame the widget runs in and is left out. *)
Definition onMount (h : Host) (st : State) : State :=
  match formatDateTime h (newDate_now h) with
  | Ret (dateStr, timeStr) => setEventTime timeStr (setEventDate dateStr st)
  | Raise _ => st
  end.

End OffsetPicker.

(** ** The free-text variant: one ISO string *)

Module FreeText.

Record ConvertedTime : Type := mkConverted {
  spread : TimeZone;
  converted : string;
  fullDate : string;
  timeOnly : string;
  offset : string
}.

Inductive InputMode : Type := TextMode | DateTimeMode.

Record State : Type := mkState {
  eventTime : string;
  convertedTimes : list ConvertedTime;
  error : string;
  isConverting : bool;
  copiedIndex : option nat;
  inputMode : InputMode
}.

Definition setEventTime (v : string) (st : State) : State :=
  mkState v (convertedTimes st) (error st) (isConverting st)
          (copiedIndex st) (inputMode st).

Definition setConvertedTimes (v : list ConvertedTime) (st : State) : State :=
  mkState (eventTime st) v (error st) (isConverting st)
          (copiedIndex st) (inputMode st).

Definition setError (v : string) (st : State) : State :=
  mkState (eventTime st) (convertedTimes st) v (isConverting st)
          (copiedIndex st) (inputMode st).

Definition setIsConverting (v : bool) (st : State) : State :=
  mkState (eventTime st) (convertedTimes st) (error st) v
          (copiedIndex st) (inputMode st).

(** The [offset] field: the [timeZoneName] part of the hour-minute
    formatter when it holds [GMT], else [GMT] followed by the third
    space-separated word of the date shown with a short zone name. *)
Definition offsetLabel (h : Host) (d : Date) (tz : TimeZone) : Outcome string :=
  parts <- formatToParts h HourMinute (zone tz) d ;;
  let offsetPart :=
    or_else (match findPart "timeZoneName" parts with
             | Some v => v
             | None => ""
             end) "" in
  if includes "GMT" offsetPart then Ret offsetPart
  else
    s <- toLocaleString h ZoneNameShort (zone tz) d ;;
    Ret ("GMT" ++ template_elem (nth_error (split " " s) 2)).

(** The callback of [allTimeZones.map]. *)
Definition convertOne (h : Host) (d : Date) (tz : TimeZone)
  : Outcome ConvertedTime :=
  off <- offsetLabel h d tz ;;
  c <- toLocaleString h DateTimeShort (zone tz) d ;;
  f <- toLocaleString h FullDate (zone tz) d ;;
  t <- toLocaleString h TimeOnly (zone tz) d ;;
  Ret (mkConverted tz c f t off).

Definition conversions (h : Host) (d : Date) : Outcome (list ConvertedTime) :=
  mapM (convertOne h d) (allTimeZones (timeZone h)).

Definition msgEmpty : string := "Please enter an event time".
Definition msgInvalid : string :=
  "Invalid date format. Please use ISO format (e.g., 2025-06-12T12:00:00Z) or select a valid date.".
Definition msgFailed : string := "Error converting time. Please try again.".

(** [handleConvert].  The function reads [eventTime] from the render
    that created it, [closure]; its state updates land on the current
    state [st].  The awaited delay of 300 ms is not modelled: [h] is the
    host at the moment the body after the delay runs. *)
Definition handleConvert (h : Host) (closure st : State) : State :=
  if String.eqb (eventTime closure) "" then setError msgEmpty st
  else
    let st1 := setError "" (setIsConverting true st) in
    let eventDate := newDate_string h (eventTime closure) in
    if isNaN (getTime eventDate)
    then setIsConverting false (setIsConverting false (setError msgInvalid st1))
    else
      match conversions h eventDate with
      | Ret cs => setIsConverting false (setConvertedTimes cs st1)
      | Raise _ => setIsConverting false (setError msgFailed st1)
      end.

(** A click on "Convert Time". *)
Definition clickConvert (h : Host) (st : State) : State := handleConvert h st st.

(** [now.setHours(now.getHours() + hours)] on [now = new Date()]. *)
Definition shiftedNow (h : Host) (hours : Z) : Date :=
  let now := newDate_now h in
  setHours h now (num_add (getHours h now) (Some hours)).

(** [handleQuickFill(hours)]: [setEventTime(now.toISOString())], then
    [handleConvert()], which still sees the [eventTime] of the render
    the button belongs to. *)
Definition handleQuickFill (hours : Z) (h : Host) (st : State) : State :=
  match toISOString (shiftedNow h hours) with
  | Ret iso => handleConvert h st (setEventTime iso st)
  | Raise _ => st
  end.

(** The state of the first render. *)
Definition initialState : State := mkState "" [] "" false None TextMode.

(** The mount effect: [setEventTime(now.toISOString()); handleConvert()],
    where [handleConvert] belongs to the first render. *)
Definition onMount (h : Host) (st : State) : State :=
  match toISOString (newDate_now h) with
  | Ret iso => handleConvert h st (setEventTime iso st)
  | Raise _ => st
  end.

(** [onChange] of the datetime-local input:
    [setEventTime(e.target.value + ":00Z")]. *)
Definition changeDateTimeLocal (value : string) (st : State) : State :=
  setEventTime (value ++ ":00Z") st.

(** [value] of the datetime-local input: [eventTime.slice(0, 16)]. *)
Definition dateTimeLocalValue (st : State) : string := slice0 16 (eventTime st).

(** The date line of a result card: [time.converted.split(",")[0]]. *)
Definition cardDate (r : ConvertedTime) : string := hd "" (split "," (converted r)).

End FreeText.

(** ** The date-picker variant: a Date value and an offset label *)

Module DatePicker.

Record ConvertedTime : Type := mkConverted {
  spread : TimeZone;
  converted : string;
  fullDate : string;
  timeOnly : string;
  offset : string
}.

(** [eventTime] is [Date | null]. *)
Record State : Type := mkState {
  eventTime : option Date;
  eventTimeZone : string;
  convertedTimes : list ConvertedTime;
  error : string;
  isConverting : bool;
  copiedIndex : option nat
}.

Definition setEventTime (v : option Date) (st : State) : State :=
  mkState v (eventTimeZone st) (convertedTimes st) (error st)
          (isConverting st) (copiedIndex st).

Definition setEventTimeZone (v : string) (st : State) : State :=
  mkState (eventTime st) v (convertedTimes st) (error st)
          (isConverting st) (copiedIndex st).

Definition setConvertedTimes (v : list ConvertedTime) (st : State) : State :=
  mkState (eventTime st) (eventTimeZone st) v (error st)
          (isConverting st) (copiedIndex st).

Definition setError (v : string) (st : State) : State :=
  mkState (eventTime st) (eventTimeZone st) (convertedTimes st) v
          (isConverting st) (copiedIndex st).

Definition setIsConverting (v : bool) (st : State) : State :=
  mkState (eventTime st) (eventTimeZone st) (convertedTimes st) (error st)
          v (copiedIndex st).

Definition offsetLabel (h : Host) (d : Date) (tz : TimeZone) : Outcome string :=
  parts <- formatToParts h HourMinute (zone tz) d ;;
  let offsetPart :=
    or_else (match findPart "timeZoneName" parts with
             | Some v => v
             | None => ""
             end) "" in
  if includes "GMT" offsetPart then Ret offsetPart
  else
    s <- toLocaleString h ZoneNameShort (zone tz) d ;;
    Ret ("GMT" ++ template_elem (nth_error (split " " s) 2)).

(** The callback of [allTimeZones.map]. *)
Definition convertOne (h : Host) (d : Date) (tz : TimeZone)
  : Outcome ConvertedTime :=
  off <- offsetLabel h d tz ;;
  c <- toLocaleString h DateTimeShort (zone tz) d ;;
  f <- toLocaleString h FullDate (zone tz) d ;;
  t <- toLocaleString h TimeOnly (zone tz) d ;;
  Ret (mkConverted tz c f t off).

Definition conversions (h : Host) (d : Date) : Outcome (list ConvertedTime) :=
  mapM (convertOne h d) (allTimeZones (timeZone h)).

Definition msgEmpty : string := "Please select an event time".
Definition msgInvalid : string :=
  "Invalid date selected. Please choose a valid date.".
Definition msgFailed : string := "Error converting time. Please try again.".

(** [adjustedDate], the anchor instant of a conversion. *)
Definition adjustedDate (date : Date) (tzLabel : string) : Date :=
  adjust (getTime date) (offsetHours tzLabel).

(** [handleConvert(date)].  [eventTimeZone] is read from the render
    that created the function, [closure]; the state updates land on
    [st].  The awaited delay is not modelled. *)
Definition handleConvert (h : Host) (closure : State) (date : option Date)
    (st : State) : State :=
  match date with
  | None => setError msgEmpty st
  | Some d =>
      let st1 := setError "" (setIsConverting true st) in
      if isNaN (getTime d)
      then setIsConverting false (setIsConverting false (setError msgInvalid st1))
      else
        match conversions h (adjustedDate d (eventTimeZone closure)) with
        | Ret cs => setIsConverting false (setConvertedTimes cs st1)
        | Raise _ => setIsConverting false (setError msgFailed st1)
        end
  end.

(** A click on "Convert Time": [handleConvert()] with the default
    argument [eventTime]. *)
Definition clickConvert (h : Host) (st : State) : State :=
  handleConvert h st (eventTime st) st.

(** [onChange] of the picker: [setEventTime(date); handleConvert(date)]. *)
Definition pickDate (h : Host) (date : option Date) (st : State) : State :=
  handleConvert h st date (setEventTime date st).

(** [now.setHours(now.getHours() + hours)] on [now = new Date()]. *)
Definition shiftedNow (h : Host) (hours : Z) : Date :=
  let now := newDate_now h in
  setHours h now (num_add (getHours h now) (Some hours)).

(** [handleQuickFill(hours)]: [setEventTime(now); handleConvert(now)]. *)
Definition handleQuickFill (hours : Z) (h : Host) (st : State) : State :=
  let now := shiftedNow h hours in
  handleConvert h st (Some now) (setEventTime (Some now) st).

(** The state of the first render. *)
Definition initialState : State := mkState None "UTC" [] "" false None.

(** The mount effect: [setEventTime(now); handleConvert(now)]. *)
Definition onMount (h : Host) (st : State) : State :=
  let now := newDate_now h in
  handleConvert h st (Some now) (setEventTime (Some now) st).

(** [onChange] of the offset select: [setEventTimeZone(e.target.value);
    handleConvert()].  The call takes the default argument [eventTime]
    and reads [eventTimeZone] from the render the select belongs to. *)
Definition changeZone (value : string) (h : Host) (st : State) : State :=
  handleConvert h st (eventTime st) (setEventTimeZone value st).

End DatePicker.

(** ** A reference host *)

(** The rules of the catalogue's zones that are in force in 2025 (United
    States since 2007, European Union since 1996, New South Wales since
    2008), a plain space before AM and PM, and no fallback parser. *)
Module Reference.

(** The first Sunday that is [day] or later. *)
Definition sundayFrom (day : Z) : Z := day + (7 - WeekDayOfDay day) mod 7.

Definition hours (n : Z) : Z := n * msPerHour.

(** Daylight time from the second Sunday of March, 02:00 standard time,
    to the first Sunday of November, 02:00 daylight time. *)
Definition usRule (std : Z) (t : Z) : Z :=
  let y := YearFromTime t in
  let start := MakeDate (sundayFrom (DayFromCivil y 3 8)) (hours 2 - std) in
  let stop := MakeDate (sundayFrom (DayFromCivil y 11 1)) (hours 2 - (std + hours 1)) in
  if (start <=? t) && (t <? stop) then std + hours 1 else std.

(** Summer time from the last Sunday of March to the last Sunday of
    October, both at 01:00 UTC. *)
Definition euRule (std : Z) (t : Z) : Z :=
  let y := YearFromTime t in
  let start := MakeDate (sundayFrom (DayFromCivil y 3 25)) (hours 1) in
  let stop := MakeDate (sundayFrom (DayFromCivil y 10 25)) (hours 1) in
  if (start <=? t) && (t <? stop) then std + hours 1 else std.

(** Daylight time until the first Sunday of April, 03:00 daylight time,
    and from the first Sunday of October, 02:00 standard time. *)
Definition auRule (std : Z) (t : Z) : Z :=
  let y := YearFromTime t in
  let stop := MakeDate (sundayFrom (DayFromCivil y 4 1)) (hours 3 - (std + hours 1)) in
  let start := MakeDate (sundayFrom (DayFromCivil y 10 1)) (hours 2 - std) in
  if (stop <=? t) && (t <? start) then std else std + hours 1.

Definition rules (zone : string) : option (Z -> Z) :=
  if String.eqb zone "UTC" then Some (fun _ => 0)
  else if String.eqb zone "America/New_York" then Some (usRule (hours (-5)))
  else if String.eqb zone "America/Los_Angeles" then Some (usRule (hours (-8)))
  else if String.eqb zone "Europe/London" then Some (euRule 0)
  else if String.eqb zone "Asia/Tokyo" then Some (fun _ => hours 9)
  else if String.eqb zone "Australia/Sydney" then Some (auRule (hours 10))
  else if String.eqb zone "Asia/Dubai" then Some (fun _ => hours 4)
  else None.

(** Short zone names of the en-US locale. *)
Definition shortName (zone : string) (t : Z) : string :=
  let off := match rules zone with Some f => f t | None => 0 end in
  if String.eqb zone "America/New_York"
  then (if off =? hours (-5) then "EST" else "EDT")
  else if String.eqb zone "America/Los_Angeles"
  then (if off =? hours (-8) then "PST" else "PDT")
  else if String.eqb zone "UTC" then "UTC"
  else if off =? 0 then "GMT"
  else "GMT" ++ (if 0 <? off then "+" else "-") ++ showZ (Z.abs off / msPerHour).

(** A host that runs in [zone] and whose clock reads [clock]. *)
Definition host (zone : string) (clock : Z) : Host :=
  mkHost clock zone rules shortName " " (fun _ => NaN).

(** The same host with the zone database of an installation that lacks
    the zone [missing]. *)
Definition hostWithout (missing : string) (zone : string) (clock : Z) : Host :=
  mkHost clock zone
    (fun z => if String.eqb z missing then None else rules z)
    shortName " " (fun _ => NaN).

End Reference.

(** ** The claims' own notions *)

(** The anchor the specification describes: the date and time fields
    read as literal UTC, minus the source offset in hours. *)
Definition parseAsUTC (date time : string) : Num :=
  match parseIso (date ++ "T" ++ time ++ ":00") with
  | Some f =>
      match iso_time f with
      | Some (hh, mi, ss, ms) =>
          Some (MakeDate (MakeDay (iso_year f) (iso_month f - 1) (iso_day f))
                         (MakeTime hh mi ss ms))
      | None => NaN
      end
  | None => NaN
  end.

Definition spec_anchor (date time : string) (offset : Z) : Num :=
  num_sub (parseAsUTC date time) (Some (offset * msPerHour)).

(** The label that denotes the whole-hour offset [n]. *)
Definition labelOf (n : Z) : string :=
  if n =? 0 then "UTC"
  else if 0 <? n then "UTC+" ++ showZ n
  else "UTC-" ++ showZ (- n).

(** Every zone of the list of a conversion is in the host's database. *)
Definition knowsAll (h : Host) : bool :=
  forallb (fun tz => match tzdb h (zone tz) with Some _ => true | None => false end)
          (allTimeZones (timeZone h)).

(** Zone of the first record of a result list. *)
Definition viewerZoneOf {R} (spreadOf : R -> TimeZone) (cs : list R) : option string :=
  match cs with
  | r :: _ => Some (zone (spreadOf r))
  | [] => None
  end.

(** A result list that holds one record for each zone the host knows,
    in the order of the zone list, and none for the others: what
    skipping the unknown entries would store. *)
Definition recordsOfKnownZones (h : Host) (cs : list OffsetPicker.ConvertedTime) : Prop :=
  map (fun r => zone (OffsetPicker.spread r)) cs
  = filter (fun z => match tzdb h z with Some _ => true | None => false end)
           (map zone (allTimeZones (timeZone h))).

(** The zones of the list of a conversion that the host does not know. *)
Definition unknownZones (h : Host) : list string :=
  filter (fun z => match tzdb h z with Some _ => false | None => true end)
         (map zone (allTimeZones (timeZone h))).

(** Examples used below: noon UTC of 12 June 2025, and 17:00 UTC of
    8 March 2025, the day before daylight time starts in New York. *)
Definition noon_2025_06_12 : Z := 1749729600000.
Definition eve_of_dst_2025 : Z := 1741453200000.

Definition sampleState : OffsetPicker.State :=
  OffsetPicker.mkState "2025-06-12" "12:00" "UTC" [] None [].

Definition sampleFreeText : FreeText.State :=
  FreeText.mkState "2025-06-12T12:00:00Z" [] "" false None FreeText.TextMode.

Definition samplePicker : DatePicker.State :=
  DatePicker.mkState (Some (Some noon_2025_06_12)) "UTC" [] "" false None.

(** ** A check of the calendar conversions over one 400-year cycle *)

(** For the day [doe] of the cycle that starts on 1 March of year 0:
    the month and the day of month are in range and the day number is
    found again from the date. *)
Definition civil_ok (doe : Z) : bool :=
  let '(y, m, d) := CivilFromDay (doe - 719468) in
  (1 <=? m) && (m <=? 12) && (1 <=? d) && (d <=? 31)
  && (DayFromCivil y m d =? doe - 719468).

(** [p] holds of the [n] integers from [i] on. *)
Fixpoint all_from (p : Z -> bool) (n : nat) (i : Z) : bool :=
  match n with
  | O => true
  | S k => p i && all_from p k (i + 1)
  end.

(** ** A character that does not occur in a string *)

Fixpoint lacks (c : ascii) (s : string) : bool :=
  match s with
  | EmptyString => true
  | String x s' => negb (Ascii.eqb x c) && lacks c s'
  end.

(** 20:00 UTC of 12 June 2025, when it is already 13 June in Tokyo. *)
Definition evening_utc : Z := 1749758400000.

(** * Properties *)

(** ** The host model on examples *)

Example parse_utc_instant :
  parse (Reference.host "Asia/Tokyo" 0) "2025-06-12T12:00:00Z" = Some noon_2025_06_12.
Proof. reflexivity. Qed.

Example parse_date_only_is_utc :
  parse (Reference.host "Asia/Tokyo" 0) "2025-06-12" = Some (noon_2025_06_12 - 12 * msPerHour).
Proof. reflexivity. Qed.

Example parse_local_date_time :
  parse (Reference.host "Asia/Tokyo" 0) "2025-06-12T21:00:00" = Some noon_2025_06_12.
Proof. reflexivity. Qed.

Example parse_not_iso :
  parse (Reference.host "UTC" 0) "T14:30:00" = NaN.
Proof. reflexivity. Qed.

Example iso_of_instant :
  toISOString (Some eve_of_dst_2025) = Ret "2025-03-08T17:00:00.000Z".
Proof. reflexivity. Qed.

Example civil_round_trip_2025 :
  CivilFromDay (DayFromCivil 2025 6 12) = (2025, 6, 12).
Proof. reflexivity. Qed.

Example new_york_spring_forward :
  Reference.usRule (Reference.hours (-5)) (eve_of_dst_2025 + 14 * msPerHour - 1)
    = Reference.hours (-5)
  /\ Reference.usRule (Reference.hours (-5)) (eve_of_dst_2025 + 14 * msPerHour)
    = Reference.hours (-4).
Proof. split; reflexivity. Qed.

Example offsetHours_bare : offsetHours "UTC" = Some 0.
Proof. reflexivity. Qed.

Example offsetHours_half_hour : offsetHours "UTC+5:30" = Some 5.
Proof. reflexivity. Qed.

Example offsetHours_garbage : offsetHours "Zulu" = NaN.
Proof. reflexivity. Qed.

Example split_iso : split "T" "2025-03-08T17:00:00.000Z" = ["2025-03-08"; "17:00:00.000Z"].
Proof. reflexivity. Qed.

(** ** Lemmas on [mapM] and on the formatter *)

Lemma mapM_Ret_inv {A B} (f : A -> Outcome B) (l : list A) (bs : list B) :
  mapM f l = Ret bs -> Forall2 (fun a b => f a = Ret b) l bs.
Proof.
  revert bs; induction l as [|a l IH]; intros bs H; simpl in H.
  - inversion H; constructor.
  - destruct (f a) as [b|e] eqn:Ea; simpl in H; [|discriminate].
    destruct (mapM f l) as [bs'|e] eqn:El; simpl in H; [|discriminate].
    inversion H; subst. constructor; auto.
Qed.

Lemma mapM_Ret_intro {A B} (f : A -> Outcome B) (l : list A) (bs : list B) :
  Forall2 (fun a b => f a = Ret b) l bs -> mapM f l = Ret bs.
Proof.
  induction 1 as [|a b l bs Hab _ IH]; simpl; [reflexivity|].
  rewrite Hab; simpl. rewrite IH; reflexivity.
Qed.

Lemma mapM_Raise {A B} (f : A -> Outcome B) (l : list A) :
  (exists a, In a l /\ exists e, f a = Raise e) ->
  exists e, mapM f l = Raise e.
Proof.
  induction l as [|a l IH]; intros (x & Hin & e & Hx); [destruct Hin|].
  simpl. destruct (f a) as [b|e'] eqn:Ea; simpl; [|eauto].
  destruct Hin as [->|Hin]; [congruence|].
  destruct IH as (e2 & He2); [eauto|]. rewrite He2; simpl; eauto.
Qed.

Lemma mapM_length {A B} (f : A -> Outcome B) (l : list A) (bs : list B) :
  mapM f l = Ret bs -> List.length bs = List.length l.
Proof.
  intro H. apply mapM_Ret_inv in H. induction H; simpl; congruence.
Qed.

Lemma format_unknown_zone h o z d :
  tzdb h z = None -> format h o z d = Raise (RangeError_InvalidTimeZone z).
Proof.
  intro H. unfold format, formatToParts, DateTimeFormat. rewrite H. reflexivity.
Qed.

Lemma formatToParts_unknown_zone h o z d :
  tzdb h z = None -> formatToParts h o z d = Raise (RangeError_InvalidTimeZone z).
Proof.
  intro H. unfold formatToParts, DateTimeFormat. rewrite H. reflexivity.
Qed.

Lemma format_invalid_date h o z :
  exists e, format h o z NaN = Raise e.
Proof.
  unfold format, formatToParts, DateTimeFormat.
  destruct (tzdb h z); simpl; eauto.
Qed.

Lemma format_known h o z off t :
  tzdb h z = Some off ->
  format h o z (Some t) = Ret (joinParts (partsOf h o z off t)).
Proof.
  intro H. unfold format, formatToParts, DateTimeFormat. rewrite H. reflexivity.
Qed.

Lemma adjust_value t n :
  adjust (Some t) (Some n) = TimeClip (Some (t - n * msPerHour)).
Proof.
  unfold adjust, newDate_number, num_sub, num_mul, msPerHour.
  replace (n * 60 * 60 * 1000) with (n * 3600000) by lia. reflexivity.
Qed.

Lemma adjust_NaN_time o : adjust NaN o = NaN.
Proof. reflexivity. Qed.

Lemma TimeClip_in_range t :
  Z.abs t <= maxTime -> TimeClip (Some t) = Some t.
Proof.
  intro H. unfold TimeClip. apply Z.leb_le in H. rewrite H. reflexivity.
Qed.

Lemma TimeClip_Some_inv v a : TimeClip v = Some a -> v = Some a /\ Z.abs a <= maxTime.
Proof.
  destruct v as [t|]; simpl; [|discriminate].
  destruct (Z.abs t <=? maxTime) eqn:E; [|discriminate].
  intro H; inversion H; subst. split; [reflexivity|]. now apply Z.leb_le.
Qed.

Lemma eqb_empty_false s : s <> "" -> String.eqb s "" = false.
Proof. intro H. now apply String.eqb_neq. Qed.

(** ** The offset labels *)

Ltac solve_label :=
  match goal with
  | |- exists n, _ /\ ?l = _ /\ _ =>
      let v := eval vm_compute in (offsetHours l) in
      match v with
      | Some ?k => exists k; repeat split; try reflexivity; try lia; try discriminate
      end
  end.

Lemma utcOffsets_denote label :
  In label utcOffsets ->
  exists n, -12 <= n <= 12 /\ label = labelOf n /\ offsetHours label = Some n.
Proof.
  unfold utcOffsets; intro H; simpl in H.
  repeat (destruct H as [<- | H]; [solve_label|]).
  destruct H.
Qed.

Lemma half_hour_not_listed : ~ In "UTC+5:30" utcOffsets.
Proof.
  unfold utcOffsets; intro H; simpl in H.
  repeat (destruct H as [H | H]; [discriminate H|]).
  exact H.
Qed.

(** C10: for every label of the enumerated offset list, the expression
    [parseInt(label.replace("UTC", "") || "0")] is defined and is the
    integer the label denotes, a whole number from -12 to 12; it is
    never NaN, and the bare label "UTC" gives 0 through the fallback to
    "0" after the replacement left the empty string. *)
Theorem C10_offset_extraction (label : string) :
  In label utcOffsets ->
  (exists n, -12 <= n <= 12 /\ label = labelOf n /\ offsetHours label = Some n)
  /\ offsetHours label <> NaN
  /\ replace "UTC" "" "UTC" = ""
  /\ or_else (replace "UTC" "" "UTC") "0" = "0"
  /\ offsetHours "UTC" = Some 0.
Proof.
  intro H. destruct (utcOffsets_denote label H) as (n & Hn & Hl & Ho).
  split; [eauto|]. split; [rewrite Ho; discriminate|].
  repeat split.
Qed.

Lemma C10_offset_extraction_witness :
  In "UTC-7" utcOffsets
  /\ ((exists n, -12 <= n <= 12 /\ "UTC-7" = labelOf n /\ offsetHours "UTC-7" = Some n)
      /\ offsetHours "UTC-7" <> NaN
      /\ replace "UTC" "" "UTC" = ""
      /\ or_else (replace "UTC" "" "UTC") "0" = "0"
      /\ offsetHours "UTC" = Some 0).
Proof.
  split; [unfold utcOffsets; simpl; tauto|].
  apply (C10_offset_extraction "UTC-7"). unfold utcOffsets; simpl; tauto.
Defined.

(** ** Whole-hour offsets and the boundary offsets *)

(** C7: every selectable offset is a whole number of hours from -12 to
    12 and shifts the event instant by exactly that many hours; the
    boundary labels "UTC+12" and "UTC-12" give a valid anchor, the event
    instant minus and plus 12 * 3600000 ms, without wrap-around; whatever
    the label, an anchor that is produced differs from the event instant
    by a whole number of hours, and "UTC+5:30" is not selectable. *)
Theorem C7_whole_hour_offsets (h : Host) (date time label : string) (t : Z) :
  OffsetPicker.eventDateTime h date time = Some t ->
  Z.abs t + 12 * msPerHour <= maxTime ->
  In label utcOffsets ->
  (exists n, -12 <= n <= 12 /\ offsetHours label = Some n
             /\ OffsetPicker.adjustedDate h date time label = Some (t - n * msPerHour))
  /\ OffsetPicker.adjustedDate h date time "UTC+12" = Some (t - 12 * 3600000)
  /\ OffsetPicker.adjustedDate h date time "UTC-12" = Some (t + 12 * 3600000)
  /\ (forall other a,
        OffsetPicker.adjustedDate h date time other = Some a ->
        exists k, a = t - k * msPerHour)
  /\ ~ In "UTC+5:30" utcOffsets.
Proof.
  intros Ht Hr Hl. unfold OffsetPicker.adjustedDate, getTime. rewrite Ht.
  unfold msPerHour in *.
  repeat split.
  - destruct (utcOffsets_denote label Hl) as (n & Hn & _ & Ho).
    exists n. repeat split; try lia; [exact Ho|].
    rewrite Ho, adjust_value. apply TimeClip_in_range. unfold msPerHour. lia.
  - change (offsetHours "UTC+12") with (Some 12). rewrite adjust_value.
    unfold msPerHour. apply TimeClip_in_range. lia.
  - change (offsetHours "UTC-12") with (Some (-12)). rewrite adjust_value.
    unfold msPerHour. replace (t - -12 * 3600000) with (t + 12 * 3600000) by lia.
    apply TimeClip_in_range. lia.
  - intros other a Ha. destruct (offsetHours other) as [k|]; [|discriminate Ha].
    rewrite adjust_value in Ha. apply TimeClip_Some_inv in Ha.
    destruct Ha as [Ha _]. inversion Ha. exists k. reflexivity.
  - exact half_hour_not_listed.
Qed.

Lemma C7_whole_hour_offsets_witness :
  let h := Reference.host "Asia/Tokyo" 0 in
  OffsetPicker.eventDateTime h "2025-06-12" "21:00" = Some noon_2025_06_12
  /\ Z.abs noon_2025_06_12 + 12 * msPerHour <= maxTime
  /\ In "UTC+3" utcOffsets
  /\ OffsetPicker.adjustedDate h "2025-06-12" "21:00" "UTC+12"
     = Some (noon_2025_06_12 - 12 * 3600000)
  /\ OffsetPicker.adjustedDate h "2025-06-12" "21:00" "UTC-12"
     = Some (noon_2025_06_12 + 12 * 3600000).
Proof.
  intro h.
  assert (H1 : OffsetPicker.eventDateTime h "2025-06-12" "21:00" = Some noon_2025_06_12)
    by reflexivity.
  assert (H2 : Z.abs noon_2025_06_12 + 12 * msPerHour <= maxTime)
    by (vm_compute; discriminate).
  assert (H3 : In "UTC+3" utcOffsets) by (unfold utcOffsets; simpl; tauto).
  destruct (C7_whole_hour_offsets h "2025-06-12" "21:00" "UTC+3" noon_2025_06_12 H1 H2 H3)
    as (_ & Hp & Hm & _).
  repeat split; assumption.
Defined.

(** ** The shape of a result list *)

Lemma offset_convertOne_spread h d tz r :
  OffsetPicker.convertOne h d tz = Ret r -> OffsetPicker.spread r = tz.
Proof.
  unfold OffsetPicker.convertOne. intro H.
  destruct (format h DateTimeShort (zone tz) d); simpl in H; [|discriminate].
  destruct (format h TimeOnly (zone tz) d); simpl in H; [|discriminate].
  destruct (format h MonthDay (zone tz) d); simpl in H; [|discriminate].
  inversion H; reflexivity.
Qed.

Lemma freetext_convertOne_spread h d tz r :
  FreeText.convertOne h d tz = Ret r -> FreeText.spread r = tz.
Proof.
  unfold FreeText.convertOne. intro H.
  destruct (FreeText.offsetLabel h d tz); simpl in H; [|discriminate].
  destruct (toLocaleString h DateTimeShort (zone tz) d); simpl in H; [|discriminate].
  destruct (toLocaleString h FullDate (zone tz) d); simpl in H; [|discriminate].
  destruct (toLocaleString h TimeOnly (zone tz) d); simpl in H; [|discriminate].
  inversion H; reflexivity.
Qed.

Lemma picker_convertOne_spread h d tz r :
  DatePicker.convertOne h d tz = Ret r -> DatePicker.spread r = tz.
Proof.
  unfold DatePicker.convertOne. intro H.
  destruct (DatePicker.offsetLabel h d tz); simpl in H; [|discriminate].
  destruct (toLocaleString h DateTimeShort (zone tz) d); simpl in H; [|discriminate].
  destruct (toLocaleString h FullDate (zone tz) d); simpl in H; [|discriminate].
  destruct (toLocaleString h TimeOnly (zone tz) d); simpl in H; [|discriminate].
  inversion H; reflexivity.
Qed.

(** A map whose callback keeps the element in a field returns the
    input list in that field. *)
Lemma mapM_keeps {A B} (f : A -> Outcome B) (g : B -> A) (l : list A) (bs : list B) :
  (forall a b, f a = Ret b -> g b = a) ->
  mapM f l = Ret bs -> map g bs = l.
Proof.
  intros Hg H. apply mapM_Ret_inv in H.
  induction H as [|a b l bs Hab _ IH]; simpl; [reflexivity|].
  rewrite (Hg _ _ Hab), IH. reflexivity.
Qed.

Lemma NoDup_of_map {A B} (g : B -> A) (bs : list B) :
  NoDup (map g bs) -> NoDup bs.
Proof.
  induction bs as [|b bs IH]; simpl; intro H; [constructor|].
  inversion H as [|x xs Hnin Hnd]; subst.
  constructor; [|auto].
  intro Hin. apply Hnin. now apply in_map.
Qed.

Lemma allTimeZones_NoDup z : NoDup (allTimeZones z).
Proof.
  unfold allTimeZones, popularTimeZones.
  repeat (constructor;
          [simpl; intro H;
           repeat (destruct H as [H | H]; [discriminate H|]); exact H|]).
  constructor.
Qed.

Lemma allTimeZones_length z :
  List.length (allTimeZones z) = (1 + List.length popularTimeZones)%nat.
Proof. reflexivity. Qed.

(** C2: a successful conversion stores a list of 1 + |catalogue| = 7
    records: the record of the viewer's zone first, then one record per
    catalogue entry, in the catalogue's order; no entry is left out, none
    appears twice, and the records are pairwise different. *)
Theorem C2_result_list_shape (h : Host) (st : OffsetPicker.State)
    (cs : list OffsetPicker.ConvertedTime) :
  OffsetPicker.eventDate st <> "" ->
  OffsetPicker.eventTime st <> "" ->
  OffsetPicker.tryConvert h st = Ret cs ->
  let out := OffsetPicker.convertedTimes (OffsetPicker.convertTimes h st) in
  out = cs
  /\ List.length out = (1 + List.length popularTimeZones)%nat
  /\ List.length out = 7%nat
  /\ map OffsetPicker.spread out
     = mkTimeZone "Your Local Time" (timeZone h) "📍" (Some true) :: popularTimeZones
  /\ NoDup (map OffsetPicker.spread out)
  /\ NoDup out
  /\ (forall d fs,
        FreeText.conversions h d = Ret fs ->
        List.length fs = 7%nat
        /\ map FreeText.spread fs
           = mkTimeZone "Your Local Time" (timeZone h) "📍" (Some true) :: popularTimeZones
        /\ NoDup fs).
Proof.
  intros Hd Ht Hc out.
  assert (Hout : out = cs).
  { unfold out, OffsetPicker.convertTimes.
    rewrite (eqb_empty_false _ Hd), (eqb_empty_false _ Ht), Hc. reflexivity. }
  assert (Hmap : map OffsetPicker.spread cs = allTimeZones (timeZone h)).
  { eapply mapM_keeps; [apply offset_convertOne_spread | exact Hc]. }
  assert (Hlen : List.length cs = 7%nat).
  { unfold OffsetPicker.tryConvert, OffsetPicker.conversions in Hc.
    apply mapM_length in Hc. rewrite Hc. reflexivity. }
  rewrite Hout.
  repeat split.
  - rewrite Hlen. reflexivity.
  - exact Hlen.
  - exact Hmap.
  - rewrite Hmap. apply allTimeZones_NoDup.
  - apply (NoDup_of_map OffsetPicker.spread). rewrite Hmap. apply allTimeZones_NoDup.
  - apply mapM_length in H. rewrite H. reflexivity.
  - eapply mapM_keeps; [apply freetext_convertOne_spread | exact H].
  - apply (NoDup_of_map FreeText.spread).
    erewrite mapM_keeps; [apply allTimeZones_NoDup | apply freetext_convertOne_spread | exact H].
Qed.

Lemma C2_result_list_shape_witness :
  let h := Reference.host "Europe/London" 0 in
  let out := OffsetPicker.convertedTimes (OffsetPicker.convertTimes h sampleState) in
  OffsetPicker.eventDate sampleState <> ""
  /\ OffsetPicker.eventTime sampleState <> ""
  /\ (exists cs, OffsetPicker.tryConvert h sampleState = Ret cs)
  /\ List.length out = 7%nat
  /\ map OffsetPicker.spread out
     = mkTimeZone "Your Local Time" "Europe/London" "📍" (Some true) :: popularTimeZones
  /\ NoDup out.
Proof.
  intros h out.
  assert (H1 : OffsetPicker.eventDate sampleState <> "") by discriminate.
  assert (H2 : OffsetPicker.eventTime sampleState <> "") by discriminate.
  destruct (OffsetPicker.tryConvert h sampleState) as [cs|e] eqn:E;
    [|vm_compute in E; discriminate E].
  destruct (C2_result_list_shape h sampleState cs H1 H2 E)
    as (_ & _ & Hl & Hm & _ & Hn & _).
  repeat split; try assumption. exists cs; reflexivity.
Defined.

(** ** The viewer's zone *)

Lemma offset_conversions_head h d cs :
  OffsetPicker.conversions h d = Ret cs ->
  exists r rest, cs = r :: rest
    /\ OffsetPicker.spread r = mkTimeZone "Your Local Time" (timeZone h) "📍" (Some true).
Proof.
  intro H. apply (mapM_keeps _ OffsetPicker.spread) in H;
    [|apply offset_convertOne_spread].
  destruct cs as [|r rest]; [discriminate H|].
  inversion H. eauto.
Qed.

Lemma freetext_conversions_head h d cs :
  FreeText.conversions h d = Ret cs ->
  exists r rest, cs = r :: rest
    /\ FreeText.spread r = mkTimeZone "Your Local Time" (timeZone h) "📍" (Some true).
Proof.
  intro H. apply (mapM_keeps _ FreeText.spread) in H;
    [|apply freetext_convertOne_spread].
  destruct cs as [|r rest]; [discriminate H|].
  inversion H. eauto.
Qed.

Lemma convertTimes_success h st cs :
  OffsetPicker.eventDate st <> "" ->
  OffsetPicker.eventTime st <> "" ->
  OffsetPicker.tryConvert h st = Ret cs ->
  OffsetPicker.convertTimes h st = OffsetPicker.setConvertedTimes cs st.
Proof.
  intros Hd Ht Hc. unfold OffsetPicker.convertTimes.
  rewrite (eqb_empty_false _ Hd), (eqb_empty_false _ Ht), Hc. reflexivity.
Qed.

(** C9: every conversion reads the viewer's zone from the host at the
    time of the call: the first record of the list it stores carries the
    zone the host reports then, marked local.  When the host reports
    another zone at a second call, the list of the second call carries
    the second zone; nothing of the first call is kept. *)
Theorem C9_viewer_zone_fresh (h1 h2 : Host) (st : OffsetPicker.State)
    (cs1 cs2 : list OffsetPicker.ConvertedTime) :
  OffsetPicker.eventDate st <> "" ->
  OffsetPicker.eventTime st <> "" ->
  OffsetPicker.tryConvert h1 st = Ret cs1 ->
  OffsetPicker.tryConvert h2 (OffsetPicker.convertTimes h1 st) = Ret cs2 ->
  let first := OffsetPicker.convertTimes h1 st in
  let second := OffsetPicker.convertTimes h2 first in
  viewerZoneOf OffsetPicker.spread (OffsetPicker.convertedTimes first)
    = Some (timeZone h1)
  /\ viewerZoneOf OffsetPicker.spread (OffsetPicker.convertedTimes second)
    = Some (timeZone h2)
  /\ option_map (fun r => isLocal (OffsetPicker.spread r))
       (hd_error (OffsetPicker.convertedTimes second)) = Some (Some true)
  /\ (forall d fs,
        FreeText.conversions h2 d = Ret fs ->
        viewerZoneOf FreeText.spread fs = Some (timeZone h2)).
Proof.
  intros Hd Ht H1 H2 first second.
  assert (E1 : first = OffsetPicker.setConvertedTimes cs1 st)
    by (apply convertTimes_success; assumption).
  assert (E2 : second = OffsetPicker.setConvertedTimes cs2 first).
  { apply convertTimes_success; [rewrite E1; exact Hd | rewrite E1; exact Ht | exact H2]. }
  destruct (offset_conversions_head _ _ _ H1) as (r1 & t1 & -> & Hr1).
  destruct (offset_conversions_head _ _ _ H2) as (r2 & t2 & -> & Hr2).
  rewrite E2, E1; simpl. rewrite Hr1, Hr2; simpl.
  repeat split.
  intros d fs Hf. destruct (freetext_conversions_head _ _ _ Hf) as (r & t & -> & Hr).
  simpl. rewrite Hr. reflexivity.
Qed.

Lemma C9_viewer_zone_fresh_witness :
  let h1 := Reference.host "Europe/London" 0 in
  let h2 := Reference.host "Asia/Tokyo" 0 in
  let first := OffsetPicker.convertTimes h1 sampleState in
  let second := OffsetPicker.convertTimes h2 first in
  (exists cs1, OffsetPicker.tryConvert h1 sampleState = Ret cs1)
  /\ (exists cs2, OffsetPicker.tryConvert h2 first = Ret cs2)
  /\ viewerZoneOf OffsetPicker.spread (OffsetPicker.convertedTimes first)
     = Some "Europe/London"
  /\ viewerZoneOf OffsetPicker.spread (OffsetPicker.convertedTimes second)
     = Some "Asia/Tokyo".
Proof.
  intros h1 h2 first second.
  assert (Hd : OffsetPicker.eventDate sampleState <> "") by discriminate.
  assert (Ht : OffsetPicker.eventTime sampleState <> "") by discriminate.
  destruct (OffsetPicker.tryConvert h1 sampleState) as [cs1|e] eqn:E1;
    [|vm_compute in E1; discriminate E1].
  destruct (OffsetPicker.tryConvert h2 (OffsetPicker.convertTimes h1 sampleState))
    as [cs2|e] eqn:E2; [|vm_compute in E2; discriminate E2].
  destruct (C9_viewer_zone_fresh h1 h2 sampleState cs1 cs2 Hd Ht E1 E2)
    as (Ha & Hb & _).
  split; [exists cs1; reflexivity|].
  split; [exists cs2; exact E2|].
  split; assumption.
Defined.

(** ** Determinism *)

Lemma sameInputs_eq a b :
  OffsetPicker.sameInputs a b = true ->
  OffsetPicker.eventDate a = OffsetPicker.eventDate b
  /\ OffsetPicker.eventTime a = OffsetPicker.eventTime b
  /\ OffsetPicker.eventTimeZone a = OffsetPicker.eventTimeZone b.
Proof.
  unfold OffsetPicker.sameInputs. intro H.
  apply andb_prop in H; destruct H as [H H3].
  apply andb_prop in H; destruct H as [H1 H2].
  apply String.eqb_eq in H1, H2, H3. auto.
Qed.

Lemma tryConvert_inputs h a b :
  OffsetPicker.sameInputs a b = true ->
  OffsetPicker.tryConvert h a = OffsetPicker.tryConvert h b.
Proof.
  intro H. apply sameInputs_eq in H. destruct H as (H1 & H2 & H3).
  unfold OffsetPicker.tryConvert. rewrite H1, H2, H3. reflexivity.
Qed.

Lemma convertTimes_twice h st :
  OffsetPicker.convertTimes h (OffsetPicker.convertTimes h st)
  = match OffsetPicker.tryConvert h st with
    | Ret _ => OffsetPicker.convertTimes h st
    | Raise e =>
        if String.eqb (OffsetPicker.eventDate st) ""
           || String.eqb (OffsetPicker.eventTime st) ""
        then st
        else OffsetPicker.console_error "Conversion error:" e
               (OffsetPicker.convertTimes h st)
    end.
Proof.
  unfold OffsetPicker.convertTimes at 2 3 4.
  destruct (String.eqb (OffsetPicker.eventDate st) ""
            || String.eqb (OffsetPicker.eventTime st) "") eqn:E.
  - unfold OffsetPicker.convertTimes. rewrite E.
    destruct (OffsetPicker.tryConvert h st); reflexivity.
  - destruct (OffsetPicker.tryConvert h st) as [cs|e] eqn:Ec;
      unfold OffsetPicker.convertTimes; simpl; rewrite E;
      change (OffsetPicker.tryConvert h _) with (OffsetPicker.tryConvert h st);
      rewrite Ec; reflexivity.
Qed.

(** C6: the conversion is a function of the date, the time, the offset
    label and the host.  Two states that agree on the three inputs give
    the same outcome, whatever results, copy marker and console they
    hold; when the conversion succeeds both store that same list; and a
    second invocation right after the first stores the list the first
    one stored. *)
Theorem C6_deterministic (h : Host) (st st' : OffsetPicker.State) :
  OffsetPicker.sameInputs st st' = true ->
  OffsetPicker.tryConvert h st' = OffsetPicker.tryConvert h st
  /\ (forall cs,
        OffsetPicker.tryConvert h st = Ret cs ->
        OffsetPicker.eventDate st <> "" ->
        OffsetPicker.eventTime st <> "" ->
        OffsetPicker.convertedTimes (OffsetPicker.convertTimes h st) = cs
        /\ OffsetPicker.convertedTimes (OffsetPicker.convertTimes h st') = cs)
  /\ OffsetPicker.convertedTimes
       (OffsetPicker.convertTimes h (OffsetPicker.convertTimes h st))
     = OffsetPicker.convertedTimes (OffsetPicker.convertTimes h st).
Proof.
  intro Hs. split; [symmetry; now apply tryConvert_inputs|]. split.
  - intros cs Hc Hd Ht.
    pose proof (sameInputs_eq _ _ Hs) as (E1 & E2 & _).
    rewrite (convertTimes_success h st cs Hd Ht Hc).
    rewrite (convertTimes_success h st' cs).
    + split; reflexivity.
    + rewrite <- E1; exact Hd.
    + rewrite <- E2; exact Ht.
    + rewrite <- (tryConvert_inputs h st st' Hs); exact Hc.
  - rewrite convertTimes_twice.
    destruct (OffsetPicker.tryConvert h st) as [cs|e] eqn:Ec; [reflexivity|].
    unfold OffsetPicker.convertTimes.
    destruct (String.eqb (OffsetPicker.eventDate st) ""
              || String.eqb (OffsetPicker.eventTime st) "") eqn:E;
      [reflexivity|].
    rewrite Ec. reflexivity.
Qed.

Lemma C6_deterministic_witness :
  let h := Reference.host "Australia/Sydney" eve_of_dst_2025 in
  let st' := OffsetPicker.mkState "2025-06-12" "12:00" "UTC" [] (Some 3%nat)
               [ConsoleError "Conversion error:" RangeError_InvalidTimeValue] in
  OffsetPicker.sameInputs sampleState st' = true
  /\ OffsetPicker.tryConvert h st' = OffsetPicker.tryConvert h sampleState
  /\ OffsetPicker.convertedTimes
       (OffsetPicker.convertTimes h (OffsetPicker.convertTimes h sampleState))
     = OffsetPicker.convertedTimes (OffsetPicker.convertTimes h sampleState).
Proof.
  intros h st'.
  assert (Hs : OffsetPicker.sameInputs sampleState st' = true) by reflexivity.
  destruct (C6_deterministic h sampleState st' Hs) as (Ha & _ & Hb).
  repeat split; assumption.
Defined.

(** ** A zone the host does not know *)

Lemma forallb_false_ex {A} (p : A -> bool) (l : list A) :
  forallb p l = false -> exists a, In a l /\ p a = false.
Proof.
  induction l as [|a l IH]; simpl; [discriminate|].
  destruct (p a) eqn:E; simpl.
  - intro H. destruct (IH H) as (x & Hx & Hp). eauto.
  - intros _. eauto.
Qed.

Lemma knowsAll_false h :
  knowsAll h = false ->
  exists tz, In tz (allTimeZones (timeZone h)) /\ tzdb h (zone tz) = None.
Proof.
  intro H. apply forallb_false_ex in H. destruct H as (tz & Hin & Hp).
  exists tz. split; [exact Hin|]. destruct (tzdb h (zone tz)); [discriminate|reflexivity].
Qed.

Lemma offset_conversions_unknown h d :
  knowsAll h = false -> exists e, OffsetPicker.conversions h d = Raise e.
Proof.
  intro H. destruct (knowsAll_false h H) as (tz & Hin & Hz).
  apply mapM_Raise. exists tz. split; [exact Hin|].
  exists (RangeError_InvalidTimeZone (zone tz)).
  unfold OffsetPicker.convertOne. rewrite (format_unknown_zone _ _ _ _ Hz). reflexivity.
Qed.

Lemma freetext_conversions_unknown h t :
  knowsAll h = false -> exists e, FreeText.conversions h (Some t) = Raise e.
Proof.
  intro H. destruct (knowsAll_false h H) as (tz & Hin & Hz).
  apply mapM_Raise. exists tz. split; [exact Hin|].
  exists (RangeError_InvalidTimeZone (zone tz)).
  unfold FreeText.convertOne, FreeText.offsetLabel.
  rewrite (formatToParts_unknown_zone _ _ _ _ Hz). reflexivity.
Qed.

Lemma convertTimes_failure h st e :
  OffsetPicker.eventDate st <> "" ->
  OffsetPicker.eventTime st <> "" ->
  OffsetPicker.tryConvert h st = Raise e ->
  OffsetPicker.convertTimes h st = OffsetPicker.console_error "Conversion error:" e st.
Proof.
  intros Hd Ht Hc. unfold OffsetPicker.convertTimes.
  rewrite (eqb_empty_false _ Hd), (eqb_empty_false _ Ht), Hc. reflexivity.
Qed.

(** C5, as amended: when the host does not know a zone of the list, the
    whole batch is abandoned.  No record is stored for any zone, the
    results shown before stay, and one diagnostic is emitted: a
    "Conversion error:" line on the console in the offset-picker variant,
    the message "Error converting time. Please try again." in the
    free-text variant. *)
Theorem C5_unknown_zone_aborts_batch (h : Host) (st : OffsetPicker.State)
    (ft : FreeText.State) (t : Z) :
  knowsAll h = false ->
  OffsetPicker.eventDate st <> "" ->
  OffsetPicker.eventTime st <> "" ->
  FreeText.eventTime ft <> "" ->
  newDate_string h (FreeText.eventTime ft) = Some t ->
  (OffsetPicker.convertedTimes (OffsetPicker.convertTimes h st)
     = OffsetPicker.convertedTimes st
   /\ exists e,
        OffsetPicker.console (OffsetPicker.convertTimes h st)
        = (OffsetPicker.console st ++ [ConsoleError "Conversion error:" e])%list)
  /\ FreeText.convertedTimes (FreeText.clickConvert h ft) = FreeText.convertedTimes ft
  /\ FreeText.error (FreeText.clickConvert h ft) = "Error converting time. Please try again.".
Proof.
  intros Hk Hd Ht Hf Hp.
  destruct (offset_conversions_unknown h
              (OffsetPicker.adjustedDate h (OffsetPicker.eventDate st)
                 (OffsetPicker.eventTime st) (OffsetPicker.eventTimeZone st)) Hk)
    as (e & He).
  rewrite (convertTimes_failure h st e Hd Ht He). simpl.
  split; [split; [reflexivity | exists e; reflexivity]|].
  destruct (freetext_conversions_unknown h t Hk) as (e' & He').
  unfold FreeText.clickConvert, FreeText.handleConvert.
  rewrite (eqb_empty_false _ Hf), Hp; simpl. rewrite He'. split; reflexivity.
Qed.

Lemma C5_unknown_zone_aborts_batch_witness :
  let h := Reference.hostWithout "Asia/Dubai" "UTC" 0 in
  knowsAll h = false
  /\ OffsetPicker.convertedTimes (OffsetPicker.convertTimes h sampleState) = []
  /\ FreeText.convertedTimes (FreeText.clickConvert h sampleFreeText) = []
  /\ FreeText.error (FreeText.clickConvert h sampleFreeText)
     = "Error converting time. Please try again.".
Proof.
  intro h.
  assert (Hk : knowsAll h = false) by reflexivity.
  assert (Hd : OffsetPicker.eventDate sampleState <> "") by discriminate.
  assert (Ht : OffsetPicker.eventTime sampleState <> "") by discriminate.
  assert (Hf : FreeText.eventTime sampleFreeText <> "") by discriminate.
  assert (Hp : newDate_string h (FreeText.eventTime sampleFreeText) = Some noon_2025_06_12)
    by reflexivity.
  destruct (C5_unknown_zone_aborts_batch h sampleState sampleFreeText _ Hk Hd Ht Hf Hp)
    as ((Ha & _) & Hb & Hc).
  repeat split; assumption.
Defined.

(** C5, as stated, fails: on a host whose database lacks exactly one
    zone of the catalogue, Asia/Dubai, the conversion stores no record
    at all instead of the records of the six zones that are known; it
    logs the zone error. *)
Lemma C5_counterexample :
  let h := Reference.hostWithout "Asia/Dubai" "UTC" 0 in
  unknownZones h = ["Asia/Dubai"]
  /\ OffsetPicker.convertedTimes (OffsetPicker.convertTimes h sampleState) = []
  /\ OffsetPicker.console (OffsetPicker.convertTimes h sampleState)
     = [ConsoleError "Conversion error:" (RangeError_InvalidTimeZone "Asia/Dubai")]
  /\ ~ recordsOfKnownZones h
         (OffsetPicker.convertedTimes (OffsetPicker.convertTimes h sampleState)).
Proof.
  intro h. repeat split. intro H. vm_compute in H. discriminate H.
Qed.

(** ** Missing and unparseable input *)

Lemma offset_conversions_invalid h :
  exists e, OffsetPicker.conversions h NaN = Raise e.
Proof.
  unfold OffsetPicker.conversions, allTimeZones. simpl mapM.
  unfold OffsetPicker.convertOne at 1.
  destruct (format_invalid_date h DateTimeShort
              (zone (mkTimeZone "Your Local Time" (timeZone h) "📍" (Some true))))
    as (e & He).
  rewrite He. simpl. eauto.
Qed.

(** C3, as amended.  Offset-picker variant: with an empty date or an
    empty time [convertTimes] returns at once, the state is untouched and
    nothing is reported; with a date and time that do not parse, no
    anchor is produced, the results shown before stay and a "Conversion
    error:" line is written to the console.  Free-text and date-picker
    variants: with a missing value or a value that is not a valid date,
    the results shown before stay and the error message says which of the
    two it was. *)
Theorem C3_invalid_input (h : Host) (st : OffsetPicker.State)
    (ft : FreeText.State) (pk : DatePicker.State) :
  (OffsetPicker.eventDate st = "" \/ OffsetPicker.eventTime st = "" ->
   OffsetPicker.convertTimes h st = st)
  /\ (OffsetPicker.eventDate st <> "" ->
      OffsetPicker.eventTime st <> "" ->
      OffsetPicker.eventDateTime h (OffsetPicker.eventDate st) (OffsetPicker.eventTime st)
        = NaN ->
      OffsetPicker.adjustedDate h (OffsetPicker.eventDate st) (OffsetPicker.eventTime st)
        (OffsetPicker.eventTimeZone st) = NaN
      /\ OffsetPicker.convertedTimes (OffsetPicker.convertTimes h st)
         = OffsetPicker.convertedTimes st
      /\ exists e,
           OffsetPicker.console (OffsetPicker.convertTimes h st)
           = (OffsetPicker.console st ++ [ConsoleError "Conversion error:" e])%list)
  /\ (FreeText.eventTime ft = "" ->
      FreeText.convertedTimes (FreeText.clickConvert h ft) = FreeText.convertedTimes ft
      /\ FreeText.error (FreeText.clickConvert h ft) = "Please enter an event time")
  /\ (FreeText.eventTime ft <> "" ->
      newDate_string h (FreeText.eventTime ft) = NaN ->
      FreeText.convertedTimes (FreeText.clickConvert h ft) = FreeText.convertedTimes ft
      /\ FreeText.error (FreeText.clickConvert h ft) = FreeText.msgInvalid)
  /\ (DatePicker.eventTime pk = None ->
      DatePicker.convertedTimes (DatePicker.clickConvert h pk) = DatePicker.convertedTimes pk
      /\ DatePicker.error (DatePicker.clickConvert h pk) = "Please select an event time")
  /\ (DatePicker.eventTime pk = Some NaN ->
      DatePicker.convertedTimes (DatePicker.clickConvert h pk) = DatePicker.convertedTimes pk
      /\ DatePicker.error (DatePicker.clickConvert h pk)
         = "Invalid date selected. Please choose a valid date.").
Proof.
  repeat apply conj.
  - intros [E|E]; unfold OffsetPicker.convertTimes; rewrite E; simpl;
      [reflexivity | rewrite orb_true_r; reflexivity].
  - intros Hd Ht Hp.
    assert (Ha : OffsetPicker.adjustedDate h (OffsetPicker.eventDate st)
                   (OffsetPicker.eventTime st) (OffsetPicker.eventTimeZone st) = NaN).
    { unfold OffsetPicker.adjustedDate, getTime. rewrite Hp. apply adjust_NaN_time. }
    split; [exact Ha|].
    destruct (offset_conversions_invalid h) as (e & He).
    assert (Hc : OffsetPicker.tryConvert h st = Raise e)
      by (unfold OffsetPicker.tryConvert; rewrite Ha; exact He).
    rewrite (convertTimes_failure h st e Hd Ht Hc). simpl.
    split; [reflexivity | exists e; reflexivity].
  - intro E. unfold FreeText.clickConvert, FreeText.handleConvert. rewrite E. simpl.
    split; reflexivity.
  - intros Hn Hp. unfold FreeText.clickConvert, FreeText.handleConvert.
    rewrite (eqb_empty_false _ Hn), Hp. simpl. split; reflexivity.
  - intro E. unfold DatePicker.clickConvert, DatePicker.handleConvert. rewrite E.
    simpl. split; reflexivity.
  - intro E. unfold DatePicker.clickConvert, DatePicker.handleConvert. rewrite E.
    simpl. split; reflexivity.
Qed.

Lemma C3_invalid_input_witness :
  let h := Reference.host "UTC" 0 in
  let st := OffsetPicker.mkState "2025-06-12" "noon" "UTC" [] None [] in
  let ft := FreeText.mkState "" [] "" false None FreeText.TextMode in
  OffsetPicker.eventDateTime h "2025-06-12" "noon" = NaN
  /\ OffsetPicker.convertedTimes (OffsetPicker.convertTimes h st) = []
  /\ (exists e, OffsetPicker.console (OffsetPicker.convertTimes h st)
                = [ConsoleError "Conversion error:" e])
  /\ FreeText.error (FreeText.clickConvert h ft) = "Please enter an event time".
Proof.
  intros h st ft.
  destruct (C3_invalid_input h st ft samplePicker) as (_ & Hb & Hc & _).
  assert (Hd : OffsetPicker.eventDate st <> "") by discriminate.
  assert (Ht : OffsetPicker.eventTime st <> "") by discriminate.
  assert (Hp : OffsetPicker.eventDateTime h (OffsetPicker.eventDate st)
                 (OffsetPicker.eventTime st) = NaN) by reflexivity.
  destruct (Hb Hd Ht Hp) as (_ & H1 & H2).
  destruct (Hc eq_refl) as (_ & H3).
  repeat split; assumption.
Defined.

(** C3, as stated, fails in the offset-picker variant: with the date
    empty and the time "14:30", [convertTimes] gives back the state it
    was given, console included, so nothing tells the caller why no
    result appeared. *)
Lemma C3_counterexample :
  let h := Reference.host "UTC" 0 in
  let st := OffsetPicker.mkState "" "14:30" "UTC" [] None [] in
  OffsetPicker.convertTimes h st = st
  /\ ~ (OffsetPicker.console (OffsetPicker.convertTimes h st) <> OffsetPicker.console st).
Proof.
  intros h st. split; [reflexivity|]. intro H. apply H. reflexivity.
Qed.

(** ** The anchor of the offset-picker variant *)

(** The anchor the code computes from fields in the date-time format:
    the fields are read in the host's zone. *)
Lemma adjustedDate_reads_local_time h date time label f hh mi ss ms n :
  parseIso (date ++ "T" ++ time ++ ":00") = Some f ->
  iso_time f = Some (hh, mi, ss, ms) ->
  iso_offset f = None ->
  offsetHours label = Some n ->
  let tv := MakeDate (MakeDay (iso_year f) (iso_month f - 1) (iso_day f))
                     (MakeTime hh mi ss ms) in
  parseAsUTC date time = Some tv
  /\ (Z.abs (UTC h tv) <= maxTime ->
      OffsetPicker.adjustedDate h date time label
      = TimeClip (Some (tv - LocalTZA_local h tv - n * msPerHour))).
Proof.
  intros Hp Ht Ho Hn tv. split.
  - unfold parseAsUTC. rewrite Hp, Ht. reflexivity.
  - intro Hr. unfold OffsetPicker.adjustedDate, OffsetPicker.eventDateTime,
      newDate_string, parse, getTime.
    rewrite Hp. unfold timeOfIso. rewrite Ht, Ho. fold tv.
    rewrite (TimeClip_in_range _ Hr), Hn, adjust_value. reflexivity.
Qed.

(** C1: the code departs from the claim.  On a host in Asia/Tokyo the
    fields 2025-06-12 and 14:30 with the label "UTC" give the anchor
    05:30 UTC, nine hours before the 14:30 UTC the claim asks for: the
    string is parsed as local time, although the comment above the line
    says "Create event datetime in UTC".  On a host in UTC the two
    agree. *)
Theorem C1_anchor_reads_host_zone :
  let tokyo := Reference.host "Asia/Tokyo" 0 in
  let utc := Reference.host "UTC" 0 in
  OffsetPicker.adjustedDate tokyo "2025-06-12" "14:30" "UTC" = Some 1749706200000
  /\ spec_anchor "2025-06-12" "14:30" 0 = Some 1749738600000
  /\ toISOString (OffsetPicker.adjustedDate tokyo "2025-06-12" "14:30" "UTC")
     = Ret "2025-06-12T05:30:00.000Z"
  /\ toISOString (spec_anchor "2025-06-12" "14:30" 0) = Ret "2025-06-12T14:30:00.000Z"
  /\ OffsetPicker.adjustedDate utc "2025-06-12" "14:30" "UTC"
     = spec_anchor "2025-06-12" "14:30" 0.
Proof.
  repeat split.
Qed.

(** ** The worked example *)

Lemma knowsAll_zones h :
  knowsAll h = true ->
  forall tz, In tz (allTimeZones (timeZone h)) -> exists off, tzdb h (zone tz) = Some off.
Proof.
  unfold knowsAll. intros H tz Hin.
  rewrite forallb_forall in H. specialize (H tz Hin).
  destruct (tzdb h (zone tz)) as [off|]; [eauto|discriminate].
Qed.

Lemma offset_convertOne_known h t tz off :
  tzdb h (zone tz) = Some off ->
  OffsetPicker.convertOne h (Some t) tz
  = Ret (OffsetPicker.mkConverted tz
           (joinParts (partsOf h DateTimeShort (zone tz) off t))
           (joinParts (partsOf h TimeOnly (zone tz) off t))
           (joinParts (partsOf h MonthDay (zone tz) off t))).
Proof.
  intro H. unfold OffsetPicker.convertOne.
  rewrite !(format_known _ _ _ _ _ H). reflexivity.
Qed.

Lemma freetext_convertOne_known h t tz off :
  tzdb h (zone tz) = Some off ->
  exists lbl,
    FreeText.convertOne h (Some t) tz
    = Ret (FreeText.mkConverted tz
             (joinParts (partsOf h DateTimeShort (zone tz) off t))
             (joinParts (partsOf h FullDate (zone tz) off t))
             (joinParts (partsOf h TimeOnly (zone tz) off t))
             lbl).
Proof.
  intro H. unfold FreeText.convertOne, FreeText.offsetLabel, toLocaleString.
  rewrite !(format_known _ _ _ _ _ H).
  unfold formatToParts, DateTimeFormat. rewrite H. cbn [bind].
  match goal with |- context [if ?c then _ else _] => destruct c end;
    cbn [bind]; eauto.
Qed.

(** The formatting step at the anchor itself: for the instant 12:00 UTC
    of 12 June 2025, on every host whose zone database knows the zones
    of the list and gives New York, London and Tokyo the offsets -4 h,
    +1 h and +9 h at that instant, the map gives New York 8:00 AM,
    Jun 12, London 1:00 PM, Jun 12 and Tokyo 9:00 PM, Jun 12; the space
    before AM and PM is the one of the host's locale data. *)
Lemma worked_example_at_anchor (h : Host) (fNY fLon fTok : Z -> Z) :
  knowsAll h = true ->
  tzdb h "America/New_York" = Some fNY -> fNY noon_2025_06_12 = Reference.hours (-4) ->
  tzdb h "Europe/London" = Some fLon -> fLon noon_2025_06_12 = Reference.hours 1 ->
  tzdb h "Asia/Tokyo" = Some fTok -> fTok noon_2025_06_12 = Reference.hours 9 ->
  (exists cs ny lon tok,
    OffsetPicker.conversions h (adjust (Some noon_2025_06_12) (offsetHours "UTC")) = Ret cs
    /\ nth_error cs 1 = Some ny /\ nth_error cs 3 = Some lon /\ nth_error cs 4 = Some tok
    /\ name (OffsetPicker.spread ny) = "New York"
    /\ OffsetPicker.timeOnly ny = "8:00" ++ dayPeriodSep h ++ "AM"
    /\ OffsetPicker.dateOnly ny = "Jun 12"
    /\ name (OffsetPicker.spread lon) = "London"
    /\ OffsetPicker.timeOnly lon = "1:00" ++ dayPeriodSep h ++ "PM"
    /\ OffsetPicker.dateOnly lon = "Jun 12"
    /\ name (OffsetPicker.spread tok) = "Tokyo"
    /\ OffsetPicker.timeOnly tok = "9:00" ++ dayPeriodSep h ++ "PM"
    /\ OffsetPicker.dateOnly tok = "Jun 12")
  /\ (exists fs ny lon tok,
    FreeText.conversions h (newDate_string h "2025-06-12T12:00:00Z") = Ret fs
    /\ nth_error fs 1 = Some ny /\ nth_error fs 3 = Some lon /\ nth_error fs 4 = Some tok
    /\ name (FreeText.spread ny) = "New York"
    /\ FreeText.timeOnly ny = "8:00" ++ dayPeriodSep h ++ "AM"
    /\ FreeText.converted ny = "Jun 12, 2025, 8:00" ++ dayPeriodSep h ++ "AM"
    /\ name (FreeText.spread lon) = "London"
    /\ FreeText.timeOnly lon = "1:00" ++ dayPeriodSep h ++ "PM"
    /\ FreeText.converted lon = "Jun 12, 2025, 1:00" ++ dayPeriodSep h ++ "PM"
    /\ name (FreeText.spread tok) = "Tokyo"
    /\ FreeText.timeOnly tok = "9:00" ++ dayPeriodSep h ++ "PM"
    /\ FreeText.converted tok = "Jun 12, 2025, 9:00" ++ dayPeriodSep h ++ "PM").
Proof.
  intros Hk HNY ENY HLon ELon HTok ETok.
  pose proof (knowsAll_zones h Hk) as Hz.
  destruct (Hz (mkTimeZone "Your Local Time" (timeZone h) "📍" (Some true)))
    as (f0 & H0); [left; reflexivity|].
  destruct (Hz (mkTimeZone "Los Angeles" "America/Los_Angeles" "🇺🇸" None))
    as (fLA & HLA); [simpl; tauto|].
  destruct (Hz (mkTimeZone "Sydney" "Australia/Sydney" "🇦🇺" None))
    as (fSyd & HSyd); [simpl; tauto|].
  destruct (Hz (mkTimeZone "Dubai" "Asia/Dubai" "🇦🇪" None))
    as (fDub & HDub); [simpl; tauto|].
  cbn [zone] in H0, HLA, HSyd, HDub.
  split.
  - change (adjust (Some noon_2025_06_12) (offsetHours "UTC")) with (Some noon_2025_06_12).
    unfold OffsetPicker.conversions, allTimeZones, popularTimeZones.
    cbn [mapM].
    do 7 (erewrite offset_convertOne_known by (cbn [zone]; eassumption)).
    cbn [bind].
    do 4 eexists. split; [reflexivity|].
    cbn [nth_error].
    split; [reflexivity|]. split; [reflexivity|]. split; [reflexivity|].
    cbn [OffsetPicker.spread OffsetPicker.timeOnly OffsetPicker.dateOnly name zone].
    unfold partsOf, timeParts. rewrite ENY, ELon, ETok.
    repeat split; vm_compute; reflexivity.
  - change (newDate_string h "2025-06-12T12:00:00Z") with (Some noon_2025_06_12).
    unfold FreeText.conversions, allTimeZones, popularTimeZones.
    cbn [mapM].
    destruct (freetext_convertOne_known h noon_2025_06_12
                (mkTimeZone "Your Local Time" (timeZone h) "📍" (Some true)) f0 H0)
      as (l0 & ->).
    destruct (freetext_convertOne_known h noon_2025_06_12
                (mkTimeZone "New York" "America/New_York" "🇺🇸" None) fNY HNY)
      as (l1 & ->).
    destruct (freetext_convertOne_known h noon_2025_06_12
                (mkTimeZone "Los Angeles" "America/Los_Angeles" "🇺🇸" None) fLA HLA)
      as (l2 & ->).
    destruct (freetext_convertOne_known h noon_2025_06_12
                (mkTimeZone "London" "Europe/London" "🇬🇧" None) fLon HLon)
      as (l3 & ->).
    destruct (freetext_convertOne_known h noon_2025_06_12
                (mkTimeZone "Tokyo" "Asia/Tokyo" "🇯🇵" None) fTok HTok)
      as (l4 & ->).
    destruct (freetext_convertOne_known h noon_2025_06_12
                (mkTimeZone "Sydney" "Australia/Sydney" "🇦🇺" None) fSyd HSyd)
      as (l5 & ->).
    destruct (freetext_convertOne_known h noon_2025_06_12
                (mkTimeZone "Dubai" "Asia/Dubai" "🇦🇪" None) fDub HDub)
      as (l6 & ->).
    cbn [bind].
    do 4 eexists. split; [reflexivity|].
    cbn [nth_error].
    split; [reflexivity|]. split; [reflexivity|]. split; [reflexivity|].
    cbn [FreeText.spread FreeText.timeOnly FreeText.converted name zone].
    unfold partsOf, timeParts. rewrite ENY, ELon, ETok.
    repeat split; vm_compute; reflexivity.
Qed.

Lemma worked_example_at_anchor_reference :
  let h := Reference.host "Australia/Sydney" 0 in
  knowsAll h = true
  /\ (exists cs ny lon tok,
        OffsetPicker.conversions h (adjust (Some noon_2025_06_12) (offsetHours "UTC")) = Ret cs
        /\ nth_error cs 1 = Some ny /\ nth_error cs 3 = Some lon /\ nth_error cs 4 = Some tok
        /\ name (OffsetPicker.spread ny) = "New York"
        /\ OffsetPicker.timeOnly ny = "8:00 AM"
        /\ OffsetPicker.dateOnly ny = "Jun 12"
        /\ name (OffsetPicker.spread lon) = "London"
        /\ OffsetPicker.timeOnly lon = "1:00 PM"
        /\ OffsetPicker.dateOnly lon = "Jun 12"
        /\ name (OffsetPicker.spread tok) = "Tokyo"
        /\ OffsetPicker.timeOnly tok = "9:00 PM"
        /\ OffsetPicker.dateOnly tok = "Jun 12").
Proof.
  intro h. split; [reflexivity|].
  exact (proj1 (worked_example_at_anchor h
                  (Reference.usRule (Reference.hours (-5)))
                  (Reference.euRule 0)
                  (fun _ => Reference.hours 9)
                  eq_refl eq_refl eq_refl eq_refl eq_refl eq_refl eq_refl)).
Defined.

(** C8: the code departs from the claim.  The example input, date
    2025-06-12, time 12:00 and label "UTC" (offset 0), goes through
    [convertTimes]; the string is parsed as local time, so on a host in
    Asia/Tokyo the anchor is 03:00 UTC and the records show New York at
    11:00 PM, Jun 11, London at 4:00 AM, Jun 12 and Tokyo at 12:00 PM,
    Jun 12, not the 8:00 AM, 1:00 PM and 9:00 PM of the claim.  On a
    host in UTC the records are those of the claim, and so are those of
    the free-text variant for "2025-06-12T12:00:00Z" on the Tokyo host;
    for the string without an offset, "2025-06-12T12:00", the free-text
    variant on the Tokyo host shows the same shifted times as the
    offset picker. *)
Theorem C8_example_through_convertTimes :
  let tokyo := Reference.host "Asia/Tokyo" 0 in
  let utc := Reference.host "UTC" 0 in
  let shown := fun r : OffsetPicker.ConvertedTime =>
                 (name (OffsetPicker.spread r), OffsetPicker.timeOnly r,
                  OffsetPicker.dateOnly r) in
  let shownFreeText := fun r : FreeText.ConvertedTime =>
                 (name (FreeText.spread r), FreeText.timeOnly r,
                  FreeText.converted r) in
  OffsetPicker.adjustedDate tokyo "2025-06-12" "12:00" "UTC"
    = Some (noon_2025_06_12 - 9 * msPerHour)
  /\ map shown (OffsetPicker.convertedTimes (OffsetPicker.convertTimes tokyo sampleState))
     = [ ("Your Local Time", "12:00 PM", "Jun 12");
         ("New York", "11:00 PM", "Jun 11");
         ("Los Angeles", "8:00 PM", "Jun 11");
         ("London", "4:00 AM", "Jun 12");
         ("Tokyo", "12:00 PM", "Jun 12");
         ("Sydney", "1:00 PM", "Jun 12");
         ("Dubai", "7:00 AM", "Jun 12") ]
  /\ OffsetPicker.adjustedDate utc "2025-06-12" "12:00" "UTC" = Some noon_2025_06_12
  /\ map shown (OffsetPicker.convertedTimes (OffsetPicker.convertTimes utc sampleState))
     = [ ("Your Local Time", "12:00 PM", "Jun 12");
         ("New York", "8:00 AM", "Jun 12");
         ("Los Angeles", "5:00 AM", "Jun 12");
         ("London", "1:00 PM", "Jun 12");
         ("Tokyo", "9:00 PM", "Jun 12");
         ("Sydney", "10:00 PM", "Jun 12");
         ("Dubai", "4:00 PM", "Jun 12") ]
  /\ map shownFreeText
       (FreeText.convertedTimes (FreeText.clickConvert tokyo sampleFreeText))
     = [ ("Your Local Time", "9:00 PM", "Jun 12, 2025, 9:00 PM");
         ("New York", "8:00 AM", "Jun 12, 2025, 8:00 AM");
         ("Los Angeles", "5:00 AM", "Jun 12, 2025, 5:00 AM");
         ("London", "1:00 PM", "Jun 12, 2025, 1:00 PM");
         ("Tokyo", "9:00 PM", "Jun 12, 2025, 9:00 PM");
         ("Sydney", "10:00 PM", "Jun 12, 2025, 10:00 PM");
         ("Dubai", "4:00 PM", "Jun 12, 2025, 4:00 PM") ]
  /\ map shownFreeText
       (FreeText.convertedTimes
          (FreeText.clickConvert tokyo
             (FreeText.setEventTime "2025-06-12T12:00" sampleFreeText)))
     = [ ("Your Local Time", "12:00 PM", "Jun 12, 2025, 12:00 PM");
         ("New York", "11:00 PM", "Jun 11, 2025, 11:00 PM");
         ("Los Angeles", "8:00 PM", "Jun 11, 2025, 8:00 PM");
         ("London", "4:00 AM", "Jun 12, 2025, 4:00 AM");
         ("Tokyo", "12:00 PM", "Jun 12, 2025, 12:00 PM");
         ("Sydney", "1:00 PM", "Jun 12, 2025, 1:00 PM");
         ("Dubai", "7:00 AM", "Jun 12, 2025, 7:00 AM") ].
Proof.
  cbv zeta. split; [reflexivity|]. split; [vm_compute; reflexivity|].
  split; [reflexivity|]. split; [vm_compute; reflexivity|].
  split; vm_compute; reflexivity.
Qed.

(** ** Quick fill *)

Lemma MakeDate_shift_hours tl k :
  MakeDate (Day tl)
    (MakeTime (HourFromTime tl + k) (MinFromTime tl) (SecFromTime tl) (msFromTime tl))
  = tl + k * msPerHour.
Proof.
  unfold MakeDate, MakeTime, Day, HourFromTime, MinFromTime, SecFromTime, msFromTime,
    msPerDay, msPerHour, msPerMinute, msPerSecond.
  Z.div_mod_to_equations. lia.
Qed.

Lemma setHours_adds h t k :
  setHours h (Some t) (num_add (getHours h (Some t)) (Some k))
  = TimeClip (Some (UTC h (LocalTime h t + k * msPerHour))).
Proof.
  unfold setHours, getHours, num_add. rewrite MakeDate_shift_hours. reflexivity.
Qed.

Lemma shiftedNow_value h k :
  Z.abs (now h) <= maxTime ->
  OffsetPicker.shiftedNow h k
  = TimeClip (Some (UTC h (LocalTime h (now h) + k * msPerHour))).
Proof.
  intro H. unfold OffsetPicker.shiftedNow, newDate_now.
  rewrite (TimeClip_in_range _ H). apply setHours_adds.
Qed.

(** C4, as amended: [handleQuickFill(24)], invoked when the host clock
    reads I, works from the instant X = UTC(LocalTime(I) + 24 h): the
    wall-clock reading of I in the host's zone, advanced by 24 hours and
    read back in that zone.  X is I + 24 h plus the offset of the zone
    at I minus the offset with which the advanced reading is read back;
    it is I + 24 h exactly when the two offsets are the same.  In the
    date-picker variant the click is the same as picking X by hand: with
    the label "UTC" the results shown are the formatted results for the
    anchor X. *)
Theorem C4_quick_fill_next_wall_clock_day (h : Host) (pk : DatePicker.State) :
  let I := now h in
  let X := UTC h (LocalTime h I + 24 * msPerHour) in
  Z.abs I <= maxTime ->
  Z.abs X <= maxTime ->
  DatePicker.eventTimeZone pk = "UTC" ->
  OffsetPicker.shiftedNow h 24 = Some X
  /\ FreeText.shiftedNow h 24 = Some X
  /\ DatePicker.shiftedNow h 24 = Some X
  /\ DatePicker.handleQuickFill 24 h pk = DatePicker.pickDate h (Some (Some X)) pk
  /\ DatePicker.adjustedDate (Some X) (DatePicker.eventTimeZone pk) = Some X
  /\ (forall cs,
        DatePicker.conversions h (Some X) = Ret cs ->
        DatePicker.convertedTimes (DatePicker.handleQuickFill 24 h pk) = cs)
  /\ X = I + 24 * msPerHour
         + (LocalTZA_utc h I - LocalTZA_local h (LocalTime h I + 24 * msPerHour))
  /\ (X = I + 24 * msPerHour
      <-> LocalTZA_local h (LocalTime h I + 24 * msPerHour) = LocalTZA_utc h I).
Proof.
  intros I X HI HX Hz.
  assert (Hx : X = I + 24 * msPerHour
                   + (LocalTZA_utc h I
                      - LocalTZA_local h (LocalTime h I + 24 * msPerHour)))
    by (unfold X, UTC, LocalTime; lia).
  assert (Hs : OffsetPicker.shiftedNow h 24 = Some X).
  { rewrite (shiftedNow_value h 24 HI). apply TimeClip_in_range. exact HX. }
  assert (Ha : DatePicker.adjustedDate (Some X) (DatePicker.eventTimeZone pk) = Some X).
  { rewrite Hz. unfold DatePicker.adjustedDate, getTime.
    change (offsetHours "UTC") with (Some 0). rewrite adjust_value.
    replace (X - 0 * msPerHour) with X by lia. now apply TimeClip_in_range. }
  assert (Hq : DatePicker.handleQuickFill 24 h pk
               = DatePicker.pickDate h (Some (Some X)) pk).
  { unfold DatePicker.handleQuickFill, DatePicker.pickDate.
    change (DatePicker.shiftedNow h 24) with (OffsetPicker.shiftedNow h 24).
    rewrite Hs. reflexivity. }
  do 5 (split; [assumption|]).
  split; [|split; [exact Hx|]].
  - intros cs Hc. rewrite Hq.
    unfold DatePicker.pickDate, DatePicker.handleConvert.
    cbn [getTime isNaN]. rewrite Ha, Hc. reflexivity.
  - split; intro H; lia.
Qed.

Lemma C4_quick_fill_next_wall_clock_day_witness :
  let h := Reference.host "America/New_York" eve_of_dst_2025 in
  let X := UTC h (LocalTime h (now h) + 24 * msPerHour) in
  Z.abs (now h) <= maxTime
  /\ Z.abs X <= maxTime
  /\ DatePicker.eventTimeZone samplePicker = "UTC"
  /\ X = now h + 23 * msPerHour
  /\ LocalTZA_utc h (now h) = Reference.hours (-5)
  /\ LocalTZA_local h (LocalTime h (now h) + 24 * msPerHour) = Reference.hours (-4)
  /\ X = now h + 24 * msPerHour
         + (LocalTZA_utc h (now h)
            - LocalTZA_local h (LocalTime h (now h) + 24 * msPerHour))
  /\ OffsetPicker.shiftedNow h 24 = Some X
  /\ DatePicker.handleQuickFill 24 h samplePicker
     = DatePicker.pickDate h (Some (Some X)) samplePicker.
Proof.
  intros h X.
  assert (HI : Z.abs (now h) <= maxTime) by (vm_compute; discriminate).
  assert (HX : Z.abs X <= maxTime) by (vm_compute; discriminate).
  assert (Hz : DatePicker.eventTimeZone samplePicker = "UTC") by reflexivity.
  destruct (C4_quick_fill_next_wall_clock_day h samplePicker HI HX Hz)
    as (Ha & _ & _ & Hq & _ & _ & Hx & _).
  split; [exact HI|]. split; [exact HX|]. split; [exact Hz|].
  split; [reflexivity|]. split; [reflexivity|]. split; [reflexivity|].
  split; [exact Hx|]. split; [exact Ha | exact Hq].
Defined.

(** A reading that falls in the hour the zone skips is read with the
    offset before the transition: in New York, from 02:30 on 8 March
    2025, the quick fill lands exactly 24 hours later although the zone
    has changed its offset by then. *)
Example quick_fill_into_a_skipped_hour :
  let I := eve_of_dst_2025 - 9 * msPerHour - 30 * msPerMinute in
  let h := Reference.host "America/New_York" I in
  toISOString (Some I) = Ret "2025-03-08T07:30:00.000Z"
  /\ OffsetPicker.shiftedNow h 24 = Some (I + 24 * msPerHour)
  /\ LocalTZA_utc h I = Reference.hours (-5)
  /\ LocalTZA_local h (LocalTime h I + 24 * msPerHour) = Reference.hours (-5)
  /\ LocalTZA_utc h (I + 24 * msPerHour) = Reference.hours (-4).
Proof. repeat split. Qed.

(** C4, as stated, fails: on a host in America/New_York whose clock
    reads 17:00 UTC on 8 March 2025, the eve of daylight time,
    [handleQuickFill(24)] leads to the results of the anchor I + 23 h,
    not to those of I + 24 h; this holds for the offset-picker variant,
    where the effect converts the fields just filled in, and for the
    date-picker variant. *)
Lemma C4_counterexample :
  let h := Reference.host "America/New_York" eve_of_dst_2025 in
  let I := now h in
  Ret (OffsetPicker.convertedTimes (OffsetPicker.clickQuickFill 24 h sampleState))
    <> OffsetPicker.conversions h (adjust (Some (I + 24 * msPerHour)) (offsetHours "UTC"))
  /\ Ret (OffsetPicker.convertedTimes (OffsetPicker.clickQuickFill 24 h sampleState))
    = OffsetPicker.conversions h (adjust (Some (I + 23 * msPerHour)) (offsetHours "UTC"))
  /\ Ret (DatePicker.convertedTimes (DatePicker.handleQuickFill 24 h samplePicker))
    <> DatePicker.conversions h (adjust (Some (I + 24 * msPerHour)) (offsetHours "UTC"))
  /\ Ret (DatePicker.convertedTimes (DatePicker.handleQuickFill 24 h samplePicker))
    = DatePicker.conversions h (adjust (Some (I + 23 * msPerHour)) (offsetHours "UTC")).
Proof.
  intros h I. repeat split; try (vm_compute; reflexivity);
    intro H; vm_compute in H; discriminate H.
Qed.

(** * Further properties of the code *)

(** ** Decimal fields written and read back *)

Lemma digit_digitChar a : 0 <= a <= 9 -> digit (digitChar a) = Some a.
Proof.
  intro H.
  assert (C : a = 0 \/ a = 1 \/ a = 2 \/ a = 3 \/ a = 4 \/ a = 5 \/ a = 6
              \/ a = 7 \/ a = 8 \/ a = 9) by lia.
  repeat (destruct C as [-> | C]; [reflexivity|]). subst; reflexivity.
Qed.

Ltac digit_cases a H :=
  let C := fresh "C" in
  assert (C : a = 0 \/ a = 1 \/ a = 2 \/ a = 3 \/ a = 4 \/ a = 5 \/ a = 6
              \/ a = 7 \/ a = 8 \/ a = 9) by lia;
  clear H;
  repeat (destruct C as [-> | C]; [reflexivity|]); subst; reflexivity.

Lemma digits_step k acc a s :
  0 <= a <= 9 ->
  digits (S k) acc (String (digitChar a) s) = digits k (acc * 10 + a) s.
Proof. intro H. cbn [digits]. rewrite (digit_digitChar a H). reflexivity. Qed.

Lemma parseYear_digit a s :
  0 <= a <= 9 ->
  parseYear (String (digitChar a) s) = digits 4 0 (String (digitChar a) s).
Proof. intro H. digit_cases a H. Qed.

Lemma split_T_digit a cur s :
  0 <= a <= 9 ->
  split_go "T" 0 cur (String (digitChar a) s)
  = split_go "T" 0 (cur ++ String (digitChar a) "") s.
Proof. intro H. digit_cases a H. Qed.

Lemma pad2_chars z :
  pad2 z = String (digitChar (z / 10 mod 10)) (String (digitChar (z mod 10)) "").
Proof. reflexivity. Qed.

Lemma pad4_chars z :
  pad4 z = String (digitChar (z / 10 / 10 / 10 mod 10))
             (String (digitChar (z / 10 / 10 mod 10))
                (String (digitChar (z / 10 mod 10))
                   (String (digitChar (z mod 10)) ""))).
Proof. reflexivity. Qed.

Lemma mod10_digit z : 0 <= z mod 10 <= 9.
Proof. pose proof (Z.mod_pos_bound z 10). lia. Qed.

Ltac read_digits :=
  repeat match goal with
         | |- context [digit (digitChar (?z mod 10))] =>
             rewrite (digit_digitChar (z mod 10) (mod10_digit z))
         end.

Lemma two_digits z : 0 <= z <= 99 -> (0 * 10 + (z / 10) mod 10) * 10 + z mod 10 = z.
Proof. intro H. Z.div_mod_to_equations. lia. Qed.

Lemma four_digits z :
  0 <= z <= 9999 ->
  (((0 * 10 + (z / 10 / 10 / 10) mod 10) * 10 + (z / 10 / 10) mod 10) * 10
   + (z / 10) mod 10) * 10 + z mod 10 = z.
Proof. intro H. Z.div_mod_to_equations. lia. Qed.

Lemma leb_true a b : a <= b -> (a <=? b) = true.
Proof. apply Z.leb_le. Qed.

Lemma parseIso_fields y mo d hh mi :
  0 <= y <= 9999 -> 1 <= mo <= 12 -> 1 <= d <= 31 ->
  0 <= hh <= 23 -> 0 <= mi <= 59 ->
  parseIso ((pad4 y ++ "-" ++ pad2 mo ++ "-" ++ pad2 d) ++ "T"
            ++ (pad2 hh ++ ":" ++ pad2 mi) ++ ":00")
  = Some (mkIso y mo d (Some (hh, mi, 0, 0)) None).
Proof.
  intros Hy Hmo Hd Hh Hmi.
  rewrite pad4_chars, !pad2_chars. cbn [append].
  unfold parseIso.
  rewrite parseYear_digit by apply mod10_digit.
  cbn [digits]. read_digits.
  cbn [digits obind fst snd parseDashField]. read_digits.
  cbn [digits obind fst snd parseDashField]. read_digits.
  cbn [digits obind fst snd parseDashField].
  rewrite (four_digits y Hy), (two_digits mo), (two_digits d) by lia.
  rewrite !leb_true by lia. cbn [andb negb].
  read_digits. cbn [obind fst snd]. read_digits. cbn [obind fst snd].
  rewrite (two_digits hh), (two_digits mi) by lia.
  change (parseSeconds ":00") with (Some (0, 0, "")).
  cbn [obind fst snd]. change (parseOffset "") with (Some (@None Z)).
  cbn [obind]. unfold validTime. rewrite !leb_true by lia. reflexivity.
Qed.

(** ** The calendar conversions are inverse to each other *)

(** [all_from] is a check of every integer of the range. *)
Lemma all_from_spec p n i :
  all_from p n i = true -> forall j, i <= j < i + Z.of_nat n -> p j = true.
Proof.
  revert i; induction n as [|k IH]; intros i H j Hj; [lia|].
  cbn [all_from] in H. apply andb_prop in H. destruct H as [Hk Hr].
  destruct (Z.eq_dec j i) as [->|Hne]; [exact Hk|].
  apply (IH (i + 1)); [exact Hr|lia].
Qed.

(** The 146097 days of a 400-year cycle, checked by evaluation. *)
Lemma civil_cycle_checked : all_from civil_ok (Z.to_nat 146097) 0 = true.
Proof. vm_compute. reflexivity. Qed.

Lemma CivilFromDay_shift z k :
  CivilFromDay (z + 146097 * k)
  = (fst (fst (CivilFromDay z)) + 400 * k, snd (fst (CivilFromDay z)), snd (CivilFromDay z)).
Proof.
  unfold CivilFromDay.
  replace ((z + 146097 * k + 719468) / 146097) with ((z + 719468) / 146097 + k)
    by (rewrite <- Z.div_add by lia; f_equal; lia).
  replace (z + 146097 * k + 719468 - ((z + 719468) / 146097 + k) * 146097)
    with (z + 719468 - (z + 719468) / 146097 * 146097) by lia.
  cbv zeta. cbn [fst snd].
  set (doe := z + 719468 - (z + 719468) / 146097 * 146097).
  set (yoe := (doe - doe / 1460 + doe / 36524 - doe / 146096) / 365).
  set (doy := doe - (365 * yoe + yoe / 4 - yoe / 100)).
  set (mp := (5 * doy + 2) / 153).
  destruct ((if mp <? 10 then mp + 3 else mp - 9) <=? 2); f_equal; f_equal; lia.
Qed.

Lemma DayFromCivil_shift y m d k :
  DayFromCivil (y + 400 * k) m d = DayFromCivil y m d + 146097 * k.
Proof.
  unfold DayFromCivil.
  set (y0 := if m <=? 2 then y - 1 else y).
  replace (if m <=? 2 then y + 400 * k - 1 else y + 400 * k) with (y0 + k * 400)
    by (unfold y0; destruct (m <=? 2); lia).
  rewrite Z.div_add by lia. cbv zeta.
  replace (y0 + k * 400 - (y0 / 400 + k) * 400) with (y0 - y0 / 400 * 400) by lia.
  lia.
Qed.

(** Every day number has a month from 1 to 12 and a day from 1 to 31,
    and is found again from its date. *)
Lemma civil_round_trip z :
  1 <= snd (fst (CivilFromDay z)) <= 12
  /\ 1 <= snd (CivilFromDay z) <= 31
  /\ DayFromCivil (fst (fst (CivilFromDay z))) (snd (fst (CivilFromDay z)))
       (snd (CivilFromDay z)) = z.
Proof.
  set (k := (z + 719468) / 146097).
  set (doe := (z + 719468) mod 146097).
  assert (Hz : z = (doe - 719468) + 146097 * k).
  { unfold doe, k. pose proof (Z.div_mod (z + 719468) 146097). lia. }
  assert (Hd : 0 <= doe < 146097) by (apply Z.mod_pos_bound; lia).
  pose proof (all_from_spec _ _ _ civil_cycle_checked doe) as Hc.
  rewrite Z2Nat.id in Hc by lia.
  assert (Hc' : civil_ok doe = true) by (apply Hc; lia). clear Hc.
  unfold civil_ok in Hc'.
  replace (CivilFromDay z) with (CivilFromDay (doe - 719468 + 146097 * k))
    by (rewrite <- Hz; reflexivity).
  rewrite CivilFromDay_shift.
  destruct (CivilFromDay (doe - 719468)) as [[y m] d]. cbn [fst snd].
  repeat (apply andb_prop in Hc'; destruct Hc' as [Hc' ?]).
  rewrite DayFromCivil_shift.
  repeat match goal with
         | H : (_ <=? _) = true |- _ => apply Z.leb_le in H
         | H : (_ =? _) = true |- _ => apply Z.eqb_eq in H
         end.
  lia.
Qed.

Lemma MakeDay_of_time t :
  MakeDay (YearFromTime t) (MonthFromTime t) (DateFromTime t) = Day t.
Proof.
  unfold MakeDay, YearFromTime, MonthFromTime, DateFromTime.
  destruct (civil_round_trip (Day t)) as (Hm & Hd & Hr).
  set (c := CivilFromDay (Day t)) in *.
  replace ((snd (fst c) - 1) / 12) with 0
    by (symmetry; apply Z.div_small; lia).
  replace ((snd (fst c) - 1) mod 12 + 1) with (snd (fst c))
    by (rewrite Z.mod_small by lia; lia).
  rewrite Z.add_0_r.
  transitivity (DayFromCivil (fst (fst c)) (snd (fst c)) (snd c)); [|exact Hr].
  unfold DayFromCivil. lia.
Qed.

(** ** The fields of [formatDateTime] *)

Lemma split_T_dash cur s :
  split_go "T" 0 cur (String "-" s) = split_go "T" 0 (cur ++ "-") s.
Proof. reflexivity. Qed.

Lemma split_T_T cur s :
  split_go "T" 0 cur (String "T" s) = cur :: split_go "T" 0 "" s.
Proof. destruct s; reflexivity. Qed.

Lemma split_T_date y mo d rest :
  hd "" (split "T" ((pad4 y ++ "-" ++ pad2 mo ++ "-" ++ pad2 d) ++ "T" ++ rest))
  = pad4 y ++ "-" ++ pad2 mo ++ "-" ++ pad2 d.
Proof.
  rewrite pad4_chars, !pad2_chars. cbn [append]. unfold split.
  repeat first [ rewrite split_T_digit by apply mod10_digit
               | rewrite split_T_dash
               | rewrite split_T_T ].
  cbn [append hd]. reflexivity.
Qed.

Lemma toISOString_fields t :
  0 <= YearFromTime t <= 9999 ->
  toISOString (Some t)
  = Ret ((pad4 (YearFromTime t) ++ "-" ++ pad2 (MonthFromTime t + 1) ++ "-"
          ++ pad2 (DateFromTime t))
         ++ "T" ++ pad2 (HourFromTime t) ++ ":" ++ pad2 (MinFromTime t)
         ++ ":" ++ pad2 (SecFromTime t) ++ "." ++ pad3 (msFromTime t) ++ "Z").
Proof.
  intro H. unfold toISOString, isoYear.
  rewrite !leb_true by lia. cbn [andb].
  rewrite pad4_chars, !pad2_chars. cbn [append]. reflexivity.
Qed.

Lemma toTimeString_prefix h t :
  slice0 5 (toTimeString h (Some t))
  = pad2 (HourFromTime (LocalTime h t)) ++ ":" ++ pad2 (MinFromTime (LocalTime h t)).
Proof.
  unfold toTimeString, slice0. rewrite !pad2_chars. cbn [append substring]. reflexivity.
Qed.

Lemma formatDateTime_fields h t :
  0 <= YearFromTime t <= 9999 ->
  OffsetPicker.formatDateTime h (Some t)
  = Ret (pad4 (YearFromTime t) ++ "-" ++ pad2 (MonthFromTime t + 1) ++ "-"
         ++ pad2 (DateFromTime t),
         pad2 (HourFromTime (LocalTime h t)) ++ ":" ++ pad2 (MinFromTime (LocalTime h t))).
Proof.
  intro H. unfold OffsetPicker.formatDateTime.
  rewrite (toISOString_fields t H). cbn [bind].
  rewrite split_T_date, toTimeString_prefix. reflexivity.
Qed.

Lemma hour_min_bounds t :
  0 <= HourFromTime t <= 23 /\ 0 <= MinFromTime t <= 59.
Proof.
  unfold HourFromTime, MinFromTime.
  pose proof (Z.mod_pos_bound (t / msPerHour) 24).
  pose proof (Z.mod_pos_bound (t / msPerMinute) 60). lia.
Qed.

Lemma MakeDate_hour_min day tl :
  MakeDate day (MakeTime (HourFromTime tl) (MinFromTime tl) 0 0)
  = tl - tl mod msPerMinute + (day - Day tl) * msPerDay.
Proof.
  unfold MakeDate, MakeTime, Day, HourFromTime, MinFromTime,
    msPerDay, msPerHour, msPerMinute, msPerSecond.
  Z.div_mod_to_equations. lia.
Qed.

(** What [convertTimes] reads in the fields [formatDateTime] wrote. *)
Lemma fields_read_back (h : Host) (t : Z) :
  0 <= YearFromTime t <= 9999 ->
  exists dateStr timeStr,
    OffsetPicker.formatDateTime h (Some t) = Ret (dateStr, timeStr)
    /\ dateStr <> "" /\ timeStr <> ""
    /\ OffsetPicker.eventDateTime h dateStr timeStr
       = TimeClip (Some (UTC h (LocalTime h t - LocalTime h t mod msPerMinute
                                + (Day t - Day (LocalTime h t)) * msPerDay))).
Proof.
  intro Hy.
  exists (pad4 (YearFromTime t) ++ "-" ++ pad2 (MonthFromTime t + 1) ++ "-"
          ++ pad2 (DateFromTime t)).
  exists (pad2 (HourFromTime (LocalTime h t)) ++ ":" ++ pad2 (MinFromTime (LocalTime h t))).
  split; [apply formatDateTime_fields; exact Hy|].
  split; [rewrite pad4_chars; cbn [append]; discriminate|].
  split; [rewrite pad2_chars; cbn [append]; discriminate|].
  destruct (civil_round_trip (Day t)) as (Hm & Hd & _).
  destruct (hour_min_bounds (LocalTime h t)) as (Hh & Hmi).
  unfold OffsetPicker.eventDateTime, newDate_string, parse.
  rewrite parseIso_fields;
    [| exact Hy | unfold MonthFromTime; lia | exact Hd | exact Hh | exact Hmi].
  unfold timeOfIso. cbn [iso_year iso_month iso_day iso_time iso_offset].
  replace (MonthFromTime t + 1 - 1) with (MonthFromTime t) by lia.
  rewrite MakeDay_of_time, MakeDate_hour_min. reflexivity.
Qed.

(** X1: for an instant t in the years 0 to 9999, [formatDateTime] gives
    a date and a time that are not empty, and [convertTimes] reads them
    back as the local time made of the UTC calendar day of t and the
    host-local hour and minute of t: the wall-clock reading of t cut to
    the minute, moved by as many days as the UTC date is ahead of the
    local date. *)
Theorem X1_formatDateTime_read_back (h : Host) (t : Z) :
  0 <= YearFromTime t <= 9999 ->
  exists dateStr timeStr,
    OffsetPicker.formatDateTime h (Some t) = Ret (dateStr, timeStr)
    /\ dateStr <> "" /\ timeStr <> ""
    /\ OffsetPicker.eventDateTime h dateStr timeStr
       = TimeClip (Some (UTC h (LocalTime h t - LocalTime h t mod msPerMinute
                                + (Day t - Day (LocalTime h t)) * msPerDay))).
Proof. exact (fields_read_back h t). Qed.

Lemma const_LocalTZA_local h c :
  (forall x, hostOffset h x = c) -> forall tl, LocalTZA_local h tl = c.
Proof.
  intros Hc tl. unfold LocalTZA_local. rewrite !Hc. rewrite Z.eqb_refl. reflexivity.
Qed.

Lemma const_UTC h c :
  (forall x, hostOffset h x = c) -> forall tl, UTC h tl = tl - c.
Proof. intros Hc tl. unfold UTC. rewrite (const_LocalTZA_local h c Hc). reflexivity. Qed.

Lemma const_LocalTime h c :
  (forall x, hostOffset h x = c) -> forall t, LocalTime h t = t + c.
Proof. intros Hc t. unfold LocalTime, LocalTZA_utc. rewrite Hc. reflexivity. Qed.

Lemma shiftedNow_fixed_offset h c k :
  (forall x, hostOffset h x = c) ->
  Z.abs (now h) <= maxTime ->
  Z.abs (now h + k * msPerHour) <= maxTime ->
  OffsetPicker.shiftedNow h k = Some (now h + k * msPerHour).
Proof.
  intros Hc Hn Hr. rewrite (shiftedNow_value h k Hn).
  rewrite (const_UTC h c Hc), (const_LocalTime h c Hc).
  replace (now h + c + k * msPerHour - c) with (now h + k * msPerHour) by lia.
  now apply TimeClip_in_range.
Qed.

Lemma trunc_minute_shift t c :
  c mod msPerMinute = 0 ->
  t + c - (t + c) mod msPerMinute - c = t - t mod msPerMinute.
Proof.
  unfold msPerMinute. intro H. Z.div_mod_to_equations. lia.
Qed.

(** X2: on a host whose zone keeps one offset c of whole minutes,
    [handleQuickFill(k)] fills fields that [convertTimes] reads as the
    instant now + k h cut to the minute, plus one day for each day the
    UTC date of that instant is ahead of its local date; it keeps the
    offset label, and the conversion the effect then runs formats that
    reading minus the label's hours. *)
Theorem X2_quick_fill_fixed_offset (h : Host) (st : OffsetPicker.State) (k c : Z) :
  let t := now h + k * msPerHour in
  (forall x, hostOffset h x = c) ->
  c mod msPerMinute = 0 ->
  Z.abs (now h) <= maxTime ->
  Z.abs t <= maxTime ->
  0 <= YearFromTime t <= 9999 ->
  let st' := OffsetPicker.handleQuickFill k h st in
  let reading := t - t mod msPerMinute + (Day t - Day (t + c)) * msPerDay in
  OffsetPicker.eventDate st' <> "" /\ OffsetPicker.eventTime st' <> ""
  /\ OffsetPicker.eventTimeZone st' = OffsetPicker.eventTimeZone st
  /\ OffsetPicker.eventDateTime h (OffsetPicker.eventDate st') (OffsetPicker.eventTime st')
     = TimeClip (Some reading)
  /\ OffsetPicker.tryConvert h st'
     = OffsetPicker.conversions h
         (adjust (TimeClip (Some reading)) (offsetHours (OffsetPicker.eventTimeZone st))).
Proof.
  intros t Hc Hm Hn Hr Hy st' reading.
  destruct (fields_read_back h t Hy) as (ds & ts & Hf & Hd & Ht & Hp).
  assert (Hst : st' = OffsetPicker.setEventTime ts (OffsetPicker.setEventDate ds st)).
  { unfold st', OffsetPicker.handleQuickFill.
    rewrite (shiftedNow_fixed_offset h c k Hc Hn Hr). fold t. rewrite Hf. reflexivity. }
  assert (Hread : OffsetPicker.eventDateTime h ds ts = TimeClip (Some reading)).
  { rewrite Hp. rewrite (const_UTC h c Hc), (const_LocalTime h c Hc).
    do 2 f_equal. unfold reading.
    pose proof (trunc_minute_shift t c Hm). lia. }
  rewrite Hst. cbn [OffsetPicker.eventDate OffsetPicker.eventTime
                    OffsetPicker.eventTimeZone OffsetPicker.setEventTime
                    OffsetPicker.setEventDate].
  repeat split; try assumption.
  unfold OffsetPicker.tryConvert, OffsetPicker.adjustedDate, getTime.
  cbn [OffsetPicker.eventDate OffsetPicker.eventTime OffsetPicker.eventTimeZone
       OffsetPicker.setEventTime OffsetPicker.setEventDate].
  rewrite Hread. reflexivity.
Qed.

(** ** Effects, closures and bounds *)

Lemma sameInputs_refl st : OffsetPicker.sameInputs st st = true.
Proof. unfold OffsetPicker.sameInputs. rewrite !String.eqb_refl. reflexivity. Qed.

(** X4: [convertTimes] leaves the date, the time, the offset label and
    the copy marker as they are and adds at most one line to the
    console.  The effect that runs it is therefore not triggered again
    by its own result: the next render keeps the state. *)
Theorem X4_convertTimes_settles (h : Host) (st : OffsetPicker.State) :
  let st' := OffsetPicker.convertTimes h st in
  OffsetPicker.eventDate st' = OffsetPicker.eventDate st
  /\ OffsetPicker.eventTime st' = OffsetPicker.eventTime st
  /\ OffsetPicker.eventTimeZone st' = OffsetPicker.eventTimeZone st
  /\ OffsetPicker.copiedIndex st' = OffsetPicker.copiedIndex st
  /\ OffsetPicker.sameInputs st st' = true
  /\ OffsetPicker.afterRender h st st' = st'
  /\ (OffsetPicker.console st' = OffsetPicker.console st
      \/ exists e, OffsetPicker.console st'
                   = (OffsetPicker.console st ++ [ConsoleError "Conversion error:" e])%list).
Proof.
  intro st'.
  assert (H : OffsetPicker.eventDate st' = OffsetPicker.eventDate st
              /\ OffsetPicker.eventTime st' = OffsetPicker.eventTime st
              /\ OffsetPicker.eventTimeZone st' = OffsetPicker.eventTimeZone st
              /\ OffsetPicker.copiedIndex st' = OffsetPicker.copiedIndex st
              /\ (OffsetPicker.console st' = OffsetPicker.console st
                  \/ exists e, OffsetPicker.console st'
                     = (OffsetPicker.console st ++ [ConsoleError "Conversion error:" e])%list)).
  { unfold st', OffsetPicker.convertTimes.
    destruct (String.eqb (OffsetPicker.eventDate st) ""
              || String.eqb (OffsetPicker.eventTime st) "");
      [repeat split; left; reflexivity|].
    destruct (OffsetPicker.tryConvert h st) as [cs|e]; cbn;
      repeat split; [left; reflexivity | right; exists e; reflexivity]. }
  destruct H as (H1 & H2 & H3 & H4 & H5).
  assert (Hs : OffsetPicker.sameInputs st st' = true).
  { unfold OffsetPicker.sameInputs. rewrite H1, H2, H3, !String.eqb_refl. reflexivity. }
  repeat split; try assumption.
  unfold OffsetPicker.afterRender. rewrite Hs. reflexivity.
Qed.

Lemma mapM_total {A B} (f : A -> Outcome B) (l : list A) :
  (forall a, In a l -> exists b, f a = Ret b) -> exists bs, mapM f l = Ret bs.
Proof.
  induction l as [|a l IH]; intro H; [exists []; reflexivity|].
  destruct (H a (or_introl eq_refl)) as (b & Hb).
  destruct IH as (bs & Hbs); [intros x Hx; apply H; right; exact Hx|].
  exists (b :: bs). cbn [mapM]. rewrite Hb. cbn [bind]. rewrite Hbs. reflexivity.
Qed.

Lemma format_Ret_inv h o z d s :
  format h o z d = Ret s -> (exists off, tzdb h z = Some off) /\ d <> NaN.
Proof.
  unfold format, formatToParts, DateTimeFormat.
  destruct (tzdb h z) as [off|]; cbn [bind]; [|discriminate].
  destruct d; cbn [bind]; [|discriminate]. intros _. split; [eauto|discriminate].
Qed.

Lemma offset_convertOne_Ret_inv h d tz r :
  OffsetPicker.convertOne h d tz = Ret r ->
  (exists off, tzdb h (zone tz) = Some off) /\ d <> NaN.
Proof.
  unfold OffsetPicker.convertOne. intro H.
  destruct (format h DateTimeShort (zone tz) d) as [c|e] eqn:E; [|discriminate H].
  exact (format_Ret_inv _ _ _ _ _ E).
Qed.

(** X5: the [try] block of [convertTimes] yields a result list exactly
    when the anchor is a valid date and the host knows the viewer's zone
    and every catalogue zone. *)
Theorem X5_conversion_succeeds_iff (h : Host) (st : OffsetPicker.State) :
  (exists cs, OffsetPicker.tryConvert h st = Ret cs)
  <-> (OffsetPicker.adjustedDate h (OffsetPicker.eventDate st) (OffsetPicker.eventTime st)
         (OffsetPicker.eventTimeZone st) <> NaN
       /\ knowsAll h = true).
Proof.
  unfold OffsetPicker.tryConvert, OffsetPicker.conversions.
  set (d := OffsetPicker.adjustedDate h _ _ _).
  split.
  - intros (cs & H). apply mapM_Ret_inv in H. split.
    + inversion H as [|a b l bs Hab _]; subst.
      exact (proj2 (offset_convertOne_Ret_inv _ _ _ _ Hab)).
    + unfold knowsAll. apply forallb_forall. intros tz Hin.
      assert (Hex : exists r, OffsetPicker.convertOne h d tz = Ret r).
      { clear - H Hin. induction H as [|a b l bs Hab _ IH]; [destruct Hin|].
        destruct Hin as [->|Hin]; [eauto|auto]. }
      destruct Hex as (r & Hr).
      destruct (proj1 (offset_convertOne_Ret_inv _ _ _ _ Hr)) as (off & ->).
      reflexivity.
  - intros (Hd & Hk). apply mapM_total. intros tz Hin.
    destruct (knowsAll_zones h Hk tz Hin) as (off & Hoff).
    destruct d as [t|]; [|contradiction].
    rewrite (offset_convertOne_known h t tz off Hoff). eauto.
Qed.

Lemma freetext_handleConvert_setEventTime h closure v st :
  FreeText.handleConvert h closure (FreeText.setEventTime v st)
  = FreeText.setEventTime v (FreeText.handleConvert h closure st).
Proof.
  unfold FreeText.handleConvert.
  destruct (String.eqb (FreeText.eventTime closure) ""); [reflexivity|].
  destruct (isNaN (getTime (newDate_string h (FreeText.eventTime closure))));
    [reflexivity|].
  destruct (FreeText.conversions h (newDate_string h (FreeText.eventTime closure)));
    reflexivity.
Qed.

Lemma freetext_quick_fill_state h st k iso :
  toISOString (FreeText.shiftedNow h k) = Ret iso ->
  FreeText.handleQuickFill k h st = FreeText.setEventTime iso (FreeText.clickConvert h st).
Proof.
  intro Hiso. unfold FreeText.handleQuickFill. rewrite Hiso.
  apply freetext_handleConvert_setEventTime.
Qed.

(** X6: in the free-text variant [handleQuickFill] writes the new ISO
    string into the field, but the conversion it starts reads the value
    the field had in the render the button belongs to: results and error
    are those of a click on "Convert Time" before the fill.  With an
    empty field the fill ends with the message "Please enter an event
    time" and the old results. *)
Theorem X6_freetext_quick_fill_converts_previous_value (h : Host) (st : FreeText.State)
    (k : Z) (iso : string) :
  toISOString (FreeText.shiftedNow h k) = Ret iso ->
  let st' := FreeText.handleQuickFill k h st in
  st' = FreeText.setEventTime iso (FreeText.clickConvert h st)
  /\ FreeText.eventTime st' = iso
  /\ FreeText.convertedTimes st' = FreeText.convertedTimes (FreeText.clickConvert h st)
  /\ FreeText.error st' = FreeText.error (FreeText.clickConvert h st)
  /\ (FreeText.eventTime st = "" ->
      FreeText.convertedTimes st' = FreeText.convertedTimes st
      /\ FreeText.error st' = "Please enter an event time").
Proof.
  intros Hiso st'.
  assert (E : st' = FreeText.setEventTime iso (FreeText.clickConvert h st))
    by (apply freetext_quick_fill_state; exact Hiso).
  rewrite E. do 4 (split; [reflexivity|]).
  intro He. unfold FreeText.clickConvert, FreeText.handleConvert. rewrite He.
  split; reflexivity.
Qed.

Lemma toISOString_total t : exists iso, toISOString (Some t) = Ret iso.
Proof. unfold toISOString. eauto. Qed.

(** X7: on mount the free-text variant fills the field with the ISO
    string of the clock and, since [handleConvert] still sees the empty
    field of the first render, shows "Please enter an event time" and no
    result. *)
Theorem X7_freetext_mount_reports_missing_time (h : Host) :
  Z.abs (now h) <= maxTime ->
  exists iso,
    toISOString (Some (now h)) = Ret iso
    /\ FreeText.onMount h FreeText.initialState
       = FreeText.mkState iso [] "Please enter an event time" false None FreeText.TextMode.
Proof.
  intro Hn. destruct (toISOString_total (now h)) as (iso & Hiso).
  exists iso. split; [exact Hiso|].
  unfold FreeText.onMount, newDate_now. rewrite (TimeClip_in_range _ Hn), Hiso.
  reflexivity.
Qed.

Lemma picker_handleConvert_setEventTimeZone h closure date v st :
  DatePicker.handleConvert h closure date (DatePicker.setEventTimeZone v st)
  = DatePicker.setEventTimeZone v (DatePicker.handleConvert h closure date st).
Proof.
  unfold DatePicker.handleConvert.
  destruct date as [d|]; [|reflexivity].
  destruct (isNaN (getTime d)); [reflexivity|].
  destruct (DatePicker.conversions h
              (DatePicker.adjustedDate d (DatePicker.eventTimeZone closure)));
    reflexivity.
Qed.

(** X10: in the date-picker variant, choosing another offset stores the
    new label, but the conversion started by the same event still uses
    the label of the render the select belongs to: the results are those
    of the old label. *)
Theorem X10_picker_zone_change_converts_previous_label (h : Host) (st : DatePicker.State)
    (v : string) (d : Z) (cs : list DatePicker.ConvertedTime) :
  DatePicker.eventTime st = Some (Some d) ->
  DatePicker.conversions h (DatePicker.adjustedDate (Some d) (DatePicker.eventTimeZone st))
    = Ret cs ->
  let st' := DatePicker.changeZone v h st in
  st' = DatePicker.setEventTimeZone v (DatePicker.clickConvert h st)
  /\ DatePicker.eventTimeZone st' = v
  /\ DatePicker.convertedTimes st' = cs.
Proof.
  intros Ed Hc st'.
  assert (E : st' = DatePicker.setEventTimeZone v (DatePicker.clickConvert h st))
    by apply picker_handleConvert_setEventTimeZone.
  rewrite E. do 2 (split; [reflexivity|]).
  unfold DatePicker.clickConvert, DatePicker.handleConvert.
  rewrite Ed. cbn [getTime isNaN]. rewrite Hc. reflexivity.
Qed.

(** X11: when the picked instant minus the offset leaves the range of
    [Date] (8.64e15 ms either side of the epoch), the anchor is the
    Invalid Date, formatting throws, the results shown before stay and
    the message is "Error converting time. Please try again.". *)
Theorem X11_picker_anchor_out_of_range (h : Host) (st : DatePicker.State) (d n : Z) :
  DatePicker.eventTime st = Some (Some d) ->
  offsetHours (DatePicker.eventTimeZone st) = Some n ->
  maxTime < Z.abs (d - n * msPerHour) ->
  DatePicker.adjustedDate (Some d) (DatePicker.eventTimeZone st) = NaN
  /\ DatePicker.convertedTimes (DatePicker.clickConvert h st) = DatePicker.convertedTimes st
  /\ DatePicker.error (DatePicker.clickConvert h st)
     = "Error converting time. Please try again."
  /\ DatePicker.isConverting (DatePicker.clickConvert h st) = false.
Proof.
  intros Ed Hn Hr.
  assert (Ha : DatePicker.adjustedDate (Some d) (DatePicker.eventTimeZone st) = NaN).
  { unfold DatePicker.adjustedDate, getTime. rewrite Hn, adjust_value.
    unfold TimeClip. destruct (Z.abs (d - n * msPerHour) <=? maxTime) eqn:E;
      [apply Z.leb_le in E; lia | reflexivity]. }
  split; [exact Ha|].
  unfold DatePicker.clickConvert, DatePicker.handleConvert.
  rewrite Ed. cbn [getTime isNaN]. rewrite Ha.
  assert (Hc : exists e, DatePicker.conversions h NaN = Raise e).
  { unfold DatePicker.conversions, allTimeZones. cbn [mapM].
    unfold DatePicker.convertOne at 1, DatePicker.offsetLabel, formatToParts, DateTimeFormat.
    unfold NaN. cbn [zone]. destruct (tzdb h (timeZone h)); cbn [bind]; eauto. }
  destruct Hc as (e & ->). repeat split.
Qed.

(** X13: on a host whose zone keeps one offset, the quick-fill buttons
    add exactly k hours to the clock: [handleQuickFill(k)] of the
    date-picker variant is the same as picking now + k * 3600000 ms. *)
Theorem X13_picker_quick_fill_fixed_offset (h : Host) (st : DatePicker.State) (k c : Z) :
  (forall x, hostOffset h x = c) ->
  Z.abs (now h) <= maxTime ->
  Z.abs (now h + k * msPerHour) <= maxTime ->
  DatePicker.shiftedNow h k = Some (now h + k * msPerHour)
  /\ FreeText.shiftedNow h k = Some (now h + k * msPerHour)
  /\ DatePicker.handleQuickFill k h st
     = DatePicker.pickDate h (Some (Some (now h + k * msPerHour))) st
  /\ DatePicker.eventTime (DatePicker.handleQuickFill k h st)
     = Some (Some (now h + k * msPerHour)).
Proof.
  intros Hc Hn Hr.
  pose proof (shiftedNow_fixed_offset h c k Hc Hn Hr) as Hs.
  assert (Hq : DatePicker.handleQuickFill k h st
               = DatePicker.pickDate h (Some (Some (now h + k * msPerHour))) st).
  { unfold DatePicker.handleQuickFill.
    change (DatePicker.shiftedNow h k) with (OffsetPicker.shiftedNow h k).
    rewrite Hs. reflexivity. }
  do 3 (split; [assumption|]).
  rewrite Hq. unfold DatePicker.pickDate, DatePicker.handleConvert.
  cbn [getTime isNaN].
  destruct (DatePicker.conversions h _); reflexivity.
Qed.

(** ** ISO strings written and read back *)

Lemma pad3_chars z :
  pad3 z = String (digitChar (z / 10 / 10 mod 10))
             (String (digitChar (z / 10 mod 10))
                (String (digitChar (z mod 10)) "")).
Proof. reflexivity. Qed.

Lemma three_digits z :
  0 <= z <= 999 ->
  ((0 * 10 + (z / 10 / 10) mod 10) * 10 + (z / 10) mod 10) * 10 + z mod 10 = z.
Proof. intro H. Z.div_mod_to_equations. lia. Qed.

(** The date and the hour and minute are read; what follows decides the
    seconds and the offset. *)
Lemma parseIso_date_time y mo d hh mi rest :
  0 <= y <= 9999 -> 1 <= mo <= 12 -> 1 <= d <= 31 ->
  0 <= hh <= 99 -> 0 <= mi <= 99 ->
  parseIso ((pad4 y ++ "-" ++ pad2 mo ++ "-" ++ pad2 d) ++ "T"
            ++ (pad2 hh ++ ":" ++ pad2 mi) ++ rest)
  = (sec <-? parseSeconds rest ;;
     off <-? parseOffset (snd sec) ;;
     if validTime hh mi (fst (fst sec)) (snd (fst sec))
     then Some (mkIso y mo d (Some (hh, mi, fst (fst sec), snd (fst sec))) off)
     else None).
Proof.
  intros Hy Hmo Hd Hh Hmi.
  rewrite pad4_chars, !pad2_chars. cbn [append].
  unfold parseIso.
  rewrite parseYear_digit by apply mod10_digit.
  cbn [digits]. read_digits.
  cbn [digits obind fst snd parseDashField]. read_digits.
  cbn [digits obind fst snd parseDashField]. read_digits.
  cbn [digits obind fst snd parseDashField].
  rewrite (four_digits y Hy), (two_digits mo), (two_digits d) by lia.
  rewrite !leb_true by lia. cbn [andb negb].
  read_digits. cbn [obind fst snd]. read_digits. cbn [obind fst snd].
  rewrite (two_digits hh), (two_digits mi) by lia.
  reflexivity.
Qed.

Lemma parseIso_full y mo d hh mi ss ms :
  0 <= y <= 9999 -> 1 <= mo <= 12 -> 1 <= d <= 31 ->
  0 <= hh <= 23 -> 0 <= mi <= 59 -> 0 <= ss <= 59 -> 0 <= ms <= 999 ->
  parseIso ((pad4 y ++ "-" ++ pad2 mo ++ "-" ++ pad2 d) ++ "T"
            ++ (pad2 hh ++ ":" ++ pad2 mi)
            ++ ":" ++ pad2 ss ++ "." ++ pad3 ms ++ "Z")
  = Some (mkIso y mo d (Some (hh, mi, ss, ms)) (Some 0)).
Proof.
  intros Hy Hmo Hd Hh Hmi Hs Hms.
  rewrite parseIso_date_time by lia.
  rewrite pad2_chars, pad3_chars. cbn [append].
  cbn [parseSeconds digits obind fst snd]. read_digits.
  cbn [obind fst snd]. read_digits. cbn [obind fst snd].
  rewrite (two_digits ss), (three_digits ms) by lia.
  change (parseOffset "Z") with (Some (Some 0)). cbn [obind].
  unfold validTime. rewrite !leb_true by lia. reflexivity.
Qed.

Lemma MakeDate_of_time t :
  MakeDate (Day t) (MakeTime (HourFromTime t) (MinFromTime t) (SecFromTime t) (msFromTime t))
  = t.
Proof.
  pose proof (MakeDate_shift_hours t 0) as H.
  rewrite Z.add_0_r in H. rewrite H. lia.
Qed.

Lemma time_field_bounds t :
  0 <= HourFromTime t <= 23 /\ 0 <= MinFromTime t <= 59
  /\ 0 <= SecFromTime t <= 59 /\ 0 <= msFromTime t <= 999.
Proof.
  unfold HourFromTime, MinFromTime, SecFromTime, msFromTime, msPerSecond.
  pose proof (Z.mod_pos_bound (t / msPerHour) 24).
  pose proof (Z.mod_pos_bound (t / msPerMinute) 60).
  pose proof (Z.mod_pos_bound (t / 1000) 60).
  pose proof (Z.mod_pos_bound t 1000). lia.
Qed.

(** [Date.parse(d.toISOString())] is the time value of [d]. *)
Lemma parse_toISOString (h : Host) (t : Z) (iso : string) :
  0 <= YearFromTime t <= 9999 ->
  toISOString (Some t) = Ret iso ->
  parse h iso = Some t.
Proof.
  intros Hy Hiso. rewrite (toISOString_fields t Hy) in Hiso.
  injection Hiso as E. rewrite <- E. clear E iso.
  destruct (civil_round_trip (Day t)) as (Hm & Hd & _).
  destruct (time_field_bounds t) as (Hh & Hmi & Hs & Hms).
  unfold parse.
  match goal with
  | |- match parseIso ?s with _ => _ end = _ =>
      replace s with
        ((pad4 (YearFromTime t) ++ "-" ++ pad2 (MonthFromTime t + 1) ++ "-"
          ++ pad2 (DateFromTime t)) ++ "T"
         ++ (pad2 (HourFromTime t) ++ ":" ++ pad2 (MinFromTime t))
         ++ ":" ++ pad2 (SecFromTime t) ++ "." ++ pad3 (msFromTime t) ++ "Z")
        by (rewrite pad4_chars, !pad2_chars, pad3_chars; cbn [append]; reflexivity)
  end.
  rewrite parseIso_full;
    [| exact Hy | unfold MonthFromTime; lia | exact Hd | exact Hh | exact Hmi
     | exact Hs | exact Hms].
  unfold timeOfIso. cbn [iso_year iso_month iso_day iso_time iso_offset].
  replace (MonthFromTime t + 1 - 1) with (MonthFromTime t) by lia.
  rewrite MakeDay_of_time, MakeDate_of_time. f_equal. lia.
Qed.

(** X8: the ISO string a quick fill writes into the field denotes the
    filled instant exactly: for an instant in the years 0 to 9999, a
    later click on "Convert Time", on any host, parses the field back to
    that instant, stores its conversions and clears the error. *)
Theorem X8_freetext_convert_after_quick_fill (h h' : Host) (st : FreeText.State)
    (k x : Z) (cs : list FreeText.ConvertedTime) :
  FreeText.shiftedNow h k = Some x ->
  0 <= YearFromTime x <= 9999 ->
  FreeText.conversions h' (Some x) = Ret cs ->
  let st' := FreeText.clickConvert h' (FreeText.handleQuickFill k h st) in
  newDate_string h' (FreeText.eventTime (FreeText.handleQuickFill k h st)) = Some x
  /\ FreeText.convertedTimes st' = cs
  /\ FreeText.error st' = "".
Proof.
  intros Hs Hy Hc st'.
  destruct (toISOString_total x) as (iso & Hiso).
  assert (Hx : Z.abs x <= maxTime).
  { unfold FreeText.shiftedNow, setHours in Hs.
    destruct (newDate_now h); [|discriminate Hs].
    destruct (num_add (getHours h (Some z)) (Some k)); [|discriminate Hs].
    now apply TimeClip_Some_inv in Hs. }
  assert (E : FreeText.handleQuickFill k h st
              = FreeText.setEventTime iso (FreeText.clickConvert h st))
    by (apply freetext_quick_fill_state; rewrite Hs; exact Hiso).
  assert (Hp : newDate_string h' iso = Some x).
  { unfold newDate_string. rewrite (parse_toISOString h' x iso Hy Hiso).
    now apply TimeClip_in_range. }
  assert (Hne : iso <> "").
  { pose proof Hiso as H2. rewrite (toISOString_fields x Hy) in H2.
    injection H2 as E'. rewrite <- E'. discriminate. }
  unfold st'. rewrite E. cbn [FreeText.eventTime FreeText.setEventTime].
  split; [exact Hp|].
  unfold FreeText.clickConvert, FreeText.handleConvert.
  cbn [FreeText.eventTime FreeText.setEventTime].
  rewrite (eqb_empty_false _ Hne), Hp. cbn [getTime isNaN]. rewrite Hc.
  split; reflexivity.
Qed.

(** ** Inputs and cards of the free-text variant *)

Lemma string_app_assoc (a b c : string) : (a ++ b) ++ c = a ++ (b ++ c).
Proof. induction a as [|x a IH]; cbn [append]; [reflexivity|]. rewrite IH. reflexivity. Qed.

Lemma slice0_append (v w : string) : slice0 (String.length v) (v ++ w) = v.
Proof.
  unfold slice0. induction v as [|x v IH]; cbn [String.length append substring].
  - destruct w; reflexivity.
  - rewrite IH. reflexivity.
Qed.

(** X9: the datetime-local input of the free-text variant appends
    ":00Z", so well-formed fields are read as UTC on every host, the
    instant [parseAsUTC] names; the offset-picker variant reads the same
    fields in the host's zone.  The input shows back the sixteen
    characters that were entered. *)
Theorem X9_datetime_local_reads_utc (h : Host) (st : FreeText.State) (y mo d hh mi : Z) :
  0 <= y <= 9999 -> 1 <= mo <= 12 -> 1 <= d <= 31 ->
  0 <= hh <= 23 -> 0 <= mi <= 59 ->
  let date := pad4 y ++ "-" ++ pad2 mo ++ "-" ++ pad2 d in
  let time := pad2 hh ++ ":" ++ pad2 mi in
  let tv := MakeDate (MakeDay y (mo - 1) d) (MakeTime hh mi 0 0) in
  let st' := FreeText.changeDateTimeLocal (date ++ "T" ++ time) st in
  newDate_string h (FreeText.eventTime st') = TimeClip (Some tv)
  /\ parseAsUTC date time = Some tv
  /\ OffsetPicker.eventDateTime h date time = TimeClip (Some (UTC h tv))
  /\ FreeText.dateTimeLocalValue st' = date ++ "T" ++ time.
Proof.
  intros Hy Hmo Hd Hh Hmi date time tv st'.
  assert (P1 : parseIso (date ++ "T" ++ time ++ ":00Z")
               = Some (mkIso y mo d (Some (hh, mi, 0, 0)) (Some 0))).
  { unfold date, time. rewrite parseIso_date_time by lia.
    change (parseSeconds ":00Z") with (Some (0, 0, "Z")). cbn [obind fst snd].
    change (parseOffset "Z") with (Some (Some 0)). cbn [obind].
    unfold validTime. rewrite !leb_true by lia. reflexivity. }
  assert (P2 : parseIso (date ++ "T" ++ time ++ ":00")
               = Some (mkIso y mo d (Some (hh, mi, 0, 0)) None)).
  { unfold date, time. apply parseIso_fields; assumption. }
  split; [|split; [|split]].
  - unfold st', FreeText.changeDateTimeLocal. cbn [FreeText.eventTime FreeText.setEventTime].
    rewrite !string_app_assoc. unfold newDate_string, parse. rewrite P1.
    unfold timeOfIso. cbn [iso_year iso_month iso_day iso_time iso_offset].
    fold tv. rewrite Z.sub_0_r. reflexivity.
  - unfold parseAsUTC. rewrite P2. reflexivity.
  - unfold OffsetPicker.eventDateTime, newDate_string, parse. rewrite P2. reflexivity.
  - unfold st', FreeText.changeDateTimeLocal, FreeText.dateTimeLocalValue.
    cbn [FreeText.eventTime FreeText.setEventTime].
    replace 16%nat with (String.length (date ++ "T" ++ time));
      [apply slice0_append|].
    unfold date, time. rewrite pad4_chars, !pad2_chars. reflexivity.
Qed.

(** X3: when the host's clock is not in a wall-clock hour that the zone
    repeats or skips, [now.setHours(now.getHours() + 0)] is the clock
    itself, and the button "Now" does what the mount effect does, in the
    offset-picker and in the date-picker variant. *)
Theorem X3_now_button_repeats_mount (h : Host) (st : OffsetPicker.State)
    (pk : DatePicker.State) :
  Z.abs (now h) <= maxTime ->
  UTC h (LocalTime h (now h)) = now h ->
  OffsetPicker.shiftedNow h 0 = Some (now h)
  /\ OffsetPicker.handleQuickFill 0 h st = OffsetPicker.onMount h st
  /\ DatePicker.handleQuickFill 0 h pk = DatePicker.onMount h pk.
Proof.
  intros Hn Hu.
  assert (Hs : OffsetPicker.shiftedNow h 0 = Some (now h)).
  { rewrite (shiftedNow_value h 0 Hn). rewrite Z.mul_0_l, Z.add_0_r, Hu.
    now apply TimeClip_in_range. }
  split; [exact Hs|]. split.
  - unfold OffsetPicker.handleQuickFill, OffsetPicker.onMount, newDate_now.
    rewrite Hs, (TimeClip_in_range _ Hn). reflexivity.
  - unfold DatePicker.handleQuickFill, DatePicker.onMount, newDate_now.
    change (DatePicker.shiftedNow h 0) with (OffsetPicker.shiftedNow h 0).
    rewrite Hs, (TimeClip_in_range _ Hn). reflexivity.
Qed.

Lemma string_app_nil (s : string) : s ++ "" = s.
Proof. induction s as [|x s IH]; cbn [append]; [|rewrite IH]; reflexivity. Qed.

Lemma prefix_nil (s : string) : String.prefix "" s = true.
Proof. destruct s; reflexivity. Qed.

Lemma split_comma_other c cur r :
  Ascii.eqb c "," = false ->
  split_go "," 0 cur (String c r) = split_go "," 0 (cur ++ String c "") r.
Proof.
  intro H. cbn [split_go String.prefix].
  destruct (ascii_dec "," c) as [E|E]; [|reflexivity].
  subst c. discriminate H.
Qed.

Lemma split_comma_here cur r :
  split_go "," 0 cur (String "," r) = cur :: split_go "," 0 "" r.
Proof.
  cbn [split_go String.prefix].
  destruct (ascii_dec "," ",") as [E|E]; [|contradiction].
  rewrite prefix_nil. reflexivity.
Qed.

(** [split] cuts at the first comma. *)
Lemma split_first_comma s cur rest :
  lacks "," s = true ->
  split_go "," 0 cur (s ++ String "," rest) = (cur ++ s) :: split_go "," 0 "" rest.
Proof.
  revert cur. induction s as [|c s IH]; intros cur H.
  - cbn [append]. rewrite string_app_nil. apply split_comma_here.
  - cbn [lacks] in H. apply andb_prop in H. destruct H as [Hc Hs].
    cbn [append]. rewrite split_comma_other by (now apply negb_true_iff).
    rewrite (IH _ Hs), string_app_assoc. reflexivity.
Qed.

Lemma lacks_app c a b : lacks c (a ++ b) = lacks c a && lacks c b.
Proof.
  induction a as [|x a IH]; cbn [append lacks]; [reflexivity|].
  rewrite IH, andb_assoc. reflexivity.
Qed.

Lemma lacks_comma_digit z : Ascii.eqb (digitChar (z mod 10)) "," = false.
Proof.
  pose proof (mod10_digit z) as H.
  assert (C : z mod 10 = 0 \/ z mod 10 = 1 \/ z mod 10 = 2 \/ z mod 10 = 3
              \/ z mod 10 = 4 \/ z mod 10 = 5 \/ z mod 10 = 6 \/ z mod 10 = 7
              \/ z mod 10 = 8 \/ z mod 10 = 9) by lia.
  repeat (destruct C as [-> | C]; [reflexivity|]). rewrite C. reflexivity.
Qed.

Lemma lacks_comma_showDigits fuel z acc :
  lacks "," acc = true -> lacks "," (showDigits fuel z acc) = true.
Proof.
  revert z acc. induction fuel as [|k IH]; intros z acc H; cbn [showDigits]; [exact H|].
  assert (H' : lacks "," (String (digitChar (z mod 10)) acc) = true).
  { cbn [lacks]. rewrite lacks_comma_digit, H. reflexivity. }
  destruct (z <? 10); [exact H'|]. apply IH. exact H'.
Qed.

Lemma lacks_comma_showZ z : lacks "," (showZ z) = true.
Proof. unfold showZ. apply lacks_comma_showDigits. reflexivity. Qed.

Lemma lacks_comma_monthShort m : lacks "," (monthShort m) = true.
Proof.
  unfold monthShort. generalize (Z.to_nat m) as n. intro n.
  do 12 (destruct n as [|n]; [reflexivity|]).
  destruct n; reflexivity.
Qed.

Lemma card_date_of_parts h z off t :
  hd "" (split "," (joinParts (partsOf h DateTimeShort z off t)))
  = joinParts (partsOf h MonthDay z off t).
Proof.
  unfold partsOf, joinParts, lit. cbn [app fold_right snd].
  set (tl := t + off t).
  match goal with
  | |- context [", " ++ ?r] => set (rest := r)
  end.
  rewrite string_app_nil.
  replace (monthShort (MonthFromTime tl) ++ " " ++ showZ (DateFromTime tl) ++ ", " ++ rest)
    with ((monthShort (MonthFromTime tl) ++ " " ++ showZ (DateFromTime tl))
          ++ String "," (" " ++ rest))
    by (rewrite !string_app_assoc; reflexivity).
  unfold split. rewrite split_first_comma.
  - reflexivity.
  - rewrite !lacks_app, lacks_comma_monthShort, lacks_comma_showZ. reflexivity.
Qed.

Lemma Ret_inj {A} (a b : A) : Ret a = Ret b -> a = b.
Proof. intro H. injection H as H. exact H. Qed.

(** X12: the date line of a result card of the free-text variant,
    [converted.split(",")[0]], is the short month and the day of the
    instant in the card's zone, the string the offset-picker variant
    stores as [dateOnly]. *)
Theorem X12_freetext_card_date_is_month_day (h : Host) (t : Z)
    (fs : list FreeText.ConvertedTime) (r : FreeText.ConvertedTime) :
  FreeText.conversions h (Some t) = Ret fs ->
  In r fs ->
  exists off,
    tzdb h (zone (FreeText.spread r)) = Some off
    /\ FreeText.cardDate r
       = monthShort (MonthFromTime (t + off t)) ++ " " ++ showZ (DateFromTime (t + off t))
    /\ Ret (FreeText.cardDate r) = format h MonthDay (zone (FreeText.spread r)) (Some t).
Proof.
  intros Hc Hin. unfold FreeText.conversions in Hc. apply mapM_Ret_inv in Hc.
  assert (Hex : exists tz, FreeText.convertOne h (Some t) tz = Ret r).
  { clear - Hc Hin. induction Hc as [|a b l bs Hab _ IH]; [destruct Hin|].
    destruct Hin as [<-|Hin]; [eauto|auto]. }
  destruct Hex as (tz & Hr).
  destruct (tzdb h (zone tz)) as [off|] eqn:Ez.
  - destruct (freetext_convertOne_known h t tz off Ez) as (lbl & Hk).
    rewrite Hk in Hr. apply Ret_inj in Hr. subst r.
    cbn [FreeText.spread]. exists off. split; [exact Ez|].
    unfold FreeText.cardDate. cbn [FreeText.converted].
    rewrite card_date_of_parts. split.
    + unfold partsOf, joinParts, lit. cbn [fold_right snd].
      rewrite string_app_nil. reflexivity.
    + rewrite (format_known h MonthDay (zone tz) off t Ez). reflexivity.
  - exfalso. unfold FreeText.convertOne, FreeText.offsetLabel in Hr.
    rewrite (formatToParts_unknown_zone _ _ _ _ Ez) in Hr. discriminate Hr.
Qed.


(** ** The properties on examples *)

Lemma X1_formatDateTime_read_back_witness :
  let h := Reference.host "Asia/Tokyo" evening_utc in
  0 <= YearFromTime evening_utc <= 9999
  /\ OffsetPicker.formatDateTime h (Some evening_utc) = Ret ("2025-06-12", "05:00")
  /\ exists dateStr timeStr,
       OffsetPicker.formatDateTime h (Some evening_utc) = Ret (dateStr, timeStr)
       /\ dateStr <> "" /\ timeStr <> ""
       /\ OffsetPicker.eventDateTime h dateStr timeStr
          = TimeClip (Some (UTC h (LocalTime h evening_utc
                                   - LocalTime h evening_utc mod msPerMinute
                                   + (Day evening_utc - Day (LocalTime h evening_utc))
                                     * msPerDay))).
Proof.
  intro h.
  assert (Hy : 0 <= YearFromTime evening_utc <= 9999)
    by (vm_compute; split; discriminate).
  split; [exact Hy|]. split; [reflexivity|].
  exact (X1_formatDateTime_read_back h evening_utc Hy).
Defined.

Lemma X2_quick_fill_fixed_offset_witness :
  let h := Reference.host "Asia/Tokyo" evening_utc in
  let st' := OffsetPicker.handleQuickFill 0 h sampleState in
  (forall x, hostOffset h x = Reference.hours 9)
  /\ Reference.hours 9 mod msPerMinute = 0
  /\ Z.abs (now h) <= maxTime
  /\ 0 <= YearFromTime (now h + 0 * msPerHour) <= 9999
  /\ OffsetPicker.eventDateTime h (OffsetPicker.eventDate st') (OffsetPicker.eventTime st')
     = Some (evening_utc - msPerDay).
Proof.
  intros h st'.
  assert (Hc : forall x, hostOffset h x = Reference.hours 9) by (intro x; reflexivity).
  assert (Hm : Reference.hours 9 mod msPerMinute = 0) by reflexivity.
  assert (Hn : Z.abs (now h) <= maxTime) by (vm_compute; discriminate).
  assert (Hr : Z.abs (now h + 0 * msPerHour) <= maxTime) by (vm_compute; discriminate).
  assert (Hy : 0 <= YearFromTime (now h + 0 * msPerHour) <= 9999)
    by (vm_compute; split; discriminate).
  destruct (X2_quick_fill_fixed_offset h sampleState 0 (Reference.hours 9) Hc Hm Hn Hr Hy)
    as (_ & _ & _ & He & _).
  split; [exact Hc|]. split; [exact Hm|]. split; [exact Hn|]. split; [exact Hy|].
  unfold st'. rewrite He. reflexivity.
Defined.

Lemma X3_now_button_repeats_mount_witness :
  let h := Reference.host "America/New_York" eve_of_dst_2025 in
  Z.abs (now h) <= maxTime
  /\ UTC h (LocalTime h (now h)) = now h
  /\ OffsetPicker.shiftedNow h 0 = Some (now h)
  /\ OffsetPicker.handleQuickFill 0 h sampleState = OffsetPicker.onMount h sampleState
  /\ DatePicker.handleQuickFill 0 h samplePicker = DatePicker.onMount h samplePicker.
Proof.
  intro h.
  assert (Hn : Z.abs (now h) <= maxTime) by (vm_compute; discriminate).
  assert (Hu : UTC h (LocalTime h (now h)) = now h) by reflexivity.
  split; [exact Hn|]. split; [exact Hu|].
  exact (X3_now_button_repeats_mount h sampleState samplePicker Hn Hu).
Defined.

Lemma X6_freetext_quick_fill_converts_previous_value_witness :
  let h := Reference.host "UTC" eve_of_dst_2025 in
  let st' := FreeText.handleQuickFill 24 h sampleFreeText in
  toISOString (FreeText.shiftedNow h 24) = Ret "2025-03-09T17:00:00.000Z"
  /\ FreeText.eventTime st' = "2025-03-09T17:00:00.000Z"
  /\ FreeText.convertedTimes st'
     = FreeText.convertedTimes (FreeText.clickConvert h sampleFreeText).
Proof.
  intros h st'.
  assert (Hi : toISOString (FreeText.shiftedNow h 24) = Ret "2025-03-09T17:00:00.000Z")
    by reflexivity.
  destruct (X6_freetext_quick_fill_converts_previous_value h sampleFreeText 24 _ Hi)
    as (_ & He & Hc & _).
  split; [exact Hi|]. split; [exact He | exact Hc].
Defined.

Lemma X7_freetext_mount_reports_missing_time_witness :
  let h := Reference.host "UTC" eve_of_dst_2025 in
  Z.abs (now h) <= maxTime
  /\ exists iso,
       toISOString (Some (now h)) = Ret iso
       /\ FreeText.onMount h FreeText.initialState
          = FreeText.mkState iso [] "Please enter an event time" false None
              FreeText.TextMode.
Proof.
  intro h.
  assert (Hn : Z.abs (now h) <= maxTime) by (vm_compute; discriminate).
  split; [exact Hn|]. exact (X7_freetext_mount_reports_missing_time h Hn).
Defined.

Lemma X8_freetext_convert_after_quick_fill_witness :
  let h := Reference.host "America/New_York" eve_of_dst_2025 in
  let h' := Reference.host "Asia/Tokyo" 0 in
  let x := eve_of_dst_2025 + 23 * msPerHour in
  let st' := FreeText.clickConvert h' (FreeText.handleQuickFill 24 h sampleFreeText) in
  FreeText.shiftedNow h 24 = Some x
  /\ 0 <= YearFromTime x <= 9999
  /\ (exists cs, FreeText.conversions h' (Some x) = Ret cs
                 /\ FreeText.convertedTimes st' = cs)
  /\ FreeText.error st' = "".
Proof.
  intros h h' x st'.
  assert (Hs : FreeText.shiftedNow h 24 = Some x) by reflexivity.
  assert (Hy : 0 <= YearFromTime x <= 9999) by (vm_compute; split; discriminate).
  destruct (FreeText.conversions h' (Some x)) as [cs|e] eqn:Ec;
    [|vm_compute in Ec; discriminate Ec].
  destruct (X8_freetext_convert_after_quick_fill h h' sampleFreeText 24 x cs Hs Hy Ec)
    as (_ & H1 & H2).
  split; [exact Hs|]. split; [exact Hy|].
  split; [exists cs; split; [reflexivity | exact H1] | exact H2].
Defined.

Lemma X9_datetime_local_reads_utc_witness :
  let h := Reference.host "Asia/Tokyo" 0 in
  let st' := FreeText.changeDateTimeLocal "2025-06-12T14:30" sampleFreeText in
  newDate_string h (FreeText.eventTime st') = Some 1749738600000
  /\ OffsetPicker.eventDateTime h "2025-06-12" "14:30" = Some 1749706200000
  /\ FreeText.dateTimeLocalValue st' = "2025-06-12T14:30".
Proof.
  intros h st'.
  assert (R1 : 0 <= 2025 <= 9999) by lia.
  assert (R2 : 1 <= 6 <= 12) by lia.
  assert (R3 : 1 <= 12 <= 31) by lia.
  assert (R4 : 0 <= 14 <= 23) by lia.
  assert (R5 : 0 <= 30 <= 59) by lia.
  destruct (X9_datetime_local_reads_utc h sampleFreeText 2025 6 12 14 30 R1 R2 R3 R4 R5)
    as (H1 & _ & H3 & H4).
  split; [exact H1|]. split; [exact H3 | exact H4].
Defined.

Lemma X12_freetext_card_date_is_month_day_witness :
  let h := Reference.host "UTC" 0 in
  exists fs r,
    FreeText.conversions h (Some noon_2025_06_12) = Ret fs
    /\ In r fs
    /\ Ret (FreeText.cardDate r)
       = format h MonthDay (zone (FreeText.spread r)) (Some noon_2025_06_12).
Proof.
  intro h.
  destruct (FreeText.conversions h (Some noon_2025_06_12)) as [fs|e] eqn:Ec;
    [|vm_compute in Ec; discriminate Ec].
  destruct fs as [|r fs]; [vm_compute in Ec; discriminate Ec|].
  exists (r :: fs), r.
  destruct (X12_freetext_card_date_is_month_day h noon_2025_06_12 (r :: fs) r Ec
              (or_introl eq_refl)) as (off & _ & _ & Hf).
  split; [reflexivity|]. split; [left; reflexivity | exact Hf].
Defined.

Lemma X10_picker_zone_change_converts_previous_label_witness :
  let h := Reference.host "UTC" 0 in
  let st' := DatePicker.changeZone "UTC+5" h samplePicker in
  DatePicker.eventTime samplePicker = Some (Some noon_2025_06_12)
  /\ (exists cs,
        DatePicker.conversions h
          (DatePicker.adjustedDate (Some noon_2025_06_12) "UTC") = Ret cs
        /\ DatePicker.convertedTimes st' = cs)
  /\ DatePicker.eventTimeZone st' = "UTC+5".
Proof.
  intros h st'.
  assert (He : DatePicker.eventTime samplePicker = Some (Some noon_2025_06_12))
    by reflexivity.
  destruct (DatePicker.conversions h
              (DatePicker.adjustedDate (Some noon_2025_06_12)
                 (DatePicker.eventTimeZone samplePicker))) as [cs|e] eqn:Ec;
    [|vm_compute in Ec; discriminate Ec].
  destruct (X10_picker_zone_change_converts_previous_label h samplePicker "UTC+5"
              noon_2025_06_12 cs He Ec) as (_ & Hz & Hc).
  split; [exact He|].
  split; [exists cs; split; [exact Ec | exact Hc] | exact Hz].
Defined.

Lemma X11_picker_anchor_out_of_range_witness :
  let h := Reference.host "UTC" 0 in
  let st := DatePicker.mkState (Some (Some maxTime)) "UTC-12" [] "" false None in
  DatePicker.eventTime st = Some (Some maxTime)
  /\ offsetHours (DatePicker.eventTimeZone st) = Some (-12)
  /\ maxTime < Z.abs (maxTime - -12 * msPerHour)
  /\ DatePicker.adjustedDate (Some maxTime) "UTC-12" = NaN
  /\ DatePicker.error (DatePicker.clickConvert h st)
     = "Error converting time. Please try again.".
Proof.
  intros h st.
  assert (He : DatePicker.eventTime st = Some (Some maxTime)) by reflexivity.
  assert (Hn : offsetHours (DatePicker.eventTimeZone st) = Some (-12)) by reflexivity.
  assert (Hr : maxTime < Z.abs (maxTime - -12 * msPerHour)) by (vm_compute; reflexivity).
  destruct (X11_picker_anchor_out_of_range h st maxTime (-12) He Hn Hr) as (Ha & _ & Hm & _).
  split; [exact He|]. split; [exact Hn|]. split; [exact Hr|].
  split; [exact Ha | exact Hm].
Defined.

Lemma X13_picker_quick_fill_fixed_offset_witness :
  let h := Reference.host "Asia/Dubai" eve_of_dst_2025 in
  (forall x, hostOffset h x = Reference.hours 4)
  /\ Z.abs (now h) <= maxTime
  /\ Z.abs (now h + 24 * msPerHour) <= maxTime
  /\ DatePicker.eventTime (DatePicker.handleQuickFill 24 h samplePicker)
     = Some (Some (eve_of_dst_2025 + 24 * msPerHour)).
Proof.
  intro h.
  assert (Hc : forall x, hostOffset h x = Reference.hours 4) by (intro x; reflexivity).
  assert (Hn : Z.abs (now h) <= maxTime) by (vm_compute; discriminate).
  assert (Hr : Z.abs (now h + 24 * msPerHour) <= maxTime) by (vm_compute; discriminate).
  destruct (X13_picker_quick_fill_fixed_offset h samplePicker 24 (Reference.hours 4) Hc Hn Hr)
    as (_ & _ & _ & He).
  split; [exact Hc|]. split; [exact Hn|]. split; [exact Hr | exact He].
Defined.

Example now_in_a_repeated_hour :
  let h := Reference.host "America/New_York" 1762065000000 in
  toISOString (Some (now h)) = Ret "2025-11-02T06:30:00.000Z"
  /\ toISOString (OffsetPicker.shiftedNow h 0) = Ret "2025-11-02T05:30:00.000Z".
Proof. split; reflexivity. Qed.
